(** * MlflowCharm: the reconciliation handler of the MLflow operator

    A shallow embedding of [src/charm.py].  The charm is a guarded
    sequential script: every lifecycle or relation event runs [_on_event],
    which reads its inputs (leadership, relation data, configuration),
    checks or creates the default S3 bucket, updates the Pebble layer of the
    workload container and publishes manifests to two relations.  A failure
    that the charm anticipates is raised as [ErrorWithStatus] and turned into
    the unit status by the handler; every other exception propagates.

    Python values are modelled as the code has them: dictionaries as [gmap],
    strings as [string], exceptions as a result type, and the mutable
    surroundings of the charm (unit status, Pebble plan, object store) as a
    state that is threaded through the calls together with the list of the
    calls that were made on the outside world. *)

From Stdlib Require Import String Ascii List.
From stdpp Require Import gmap strings list fin_maps.

(** ** Python string operations *)

Module Py.

(** [s.split(sep)] for a one-character separator: the pieces between the
    occurrences of [sep], of which there is always at least one. *)
Fixpoint split (sep : ascii) (s : string) : list string :=
  match s with
  | EmptyString => [EmptyString]
  | String c s' =>
      if Ascii.eqb c sep then EmptyString :: split sep s'
      else match split sep s' with
           | [] => [String c EmptyString]
           | piece :: pieces => String c piece :: pieces
           end
  end.

(** [s.count(sep)]. *)
Fixpoint count (sep : ascii) (s : string) : nat :=
  match s with
  | EmptyString => 0
  | String c s' => (if Ascii.eqb c sep then 1 else 0) + count sep s'
  end.

(** [sep.join(pieces)] for a one-character separator. *)
Fixpoint join (sep : ascii) (pieces : list string) : string :=
  match pieces with
  | [] => EmptyString
  | [piece] => piece
  | piece :: rest => piece +:+ String sep (join sep rest)
  end.

(** [str(b).lower()] for a boolean [b]. *)
Definition str_bool_lower (b : bool) : string :=
  if b then "true" else "false".

End Py.

(** ** Unit statuses ([ops.model]) *)

Inductive StatusType :=
| Active
| Blocked
| Maintenance
| Waiting
| Unknown.

Record Status := mkStatus { status_type : StatusType; message : string }.

Definition ActiveStatus : Status := mkStatus Active "".
Definition BlockedStatus (msg : string) : Status := mkStatus Blocked msg.
Definition MaintenanceStatus (msg : string) : Status := mkStatus Maintenance msg.
Definition WaitingStatus (msg : string) : Status := mkStatus Waiting msg.

Global Instance StatusType_eq_dec : EqDecision StatusType.
Proof. solve_decision. Defined.

Global Instance Status_eq_dec : EqDecision Status.
Proof. solve_decision. Defined.

(** ** Exceptions *)

(** [ErrorWithStatus] (charmed_kubeflow_chisme) carries a message and the
    status class it translates to; the other constructors are the plain
    exceptions that the code can meet. *)
Inductive Exn :=
| ErrorWithStatus (msg : string) (st : StatusType)
| ValueError (msg : string)
| KeyError (key : string)
| IndexError (msg : string)
| AttributeError (msg : string)
| ChangeError (msg : string)
| TooManyRelatedAppsError (msg : string)
| OtherException (msg : string).

(** [err.status]: the status class applied to the message. *)
Definition status_of_error (msg : string) (st : StatusType) : Status :=
  mkStatus st msg.

(** [str(e)]. *)
Definition str_exn (e : Exn) : string :=
  match e with
  | ErrorWithStatus msg _ => msg
  | ValueError msg => msg
  | KeyError key => "'" +:+ key +:+ "'"
  | IndexError msg => msg
  | AttributeError msg => msg
  | ChangeError msg => msg
  | TooManyRelatedAppsError msg => msg
  | OtherException msg => msg
  end.

Definition is_error_with_status (e : Exn) : bool :=
  match e with
  | ErrorWithStatus _ _ => true
  | _ => false
  end.

(** The three statuses of an anticipated failure. *)
Definition is_failure_status (st : StatusType) : bool :=
  match st with
  | Waiting | Blocked | Maintenance => true
  | _ => false
  end.

Inductive Res (A : Type) :=
| Return (a : A)
| Raise (e : Exn).

Arguments Return {A} a.
Arguments Raise {A} e.

(** Sequencing of calls that return or raise. *)
Global Instance Res_ret : MRet Res := fun _ a => Return a.

Global Instance Res_bind : MBind Res := fun _ _ k r =>
  match r with
  | Return a => k a
  | Raise e => Raise e
  end.

(** [try: r  except <class> as e: handler e] for such a call; [handler]
    answers [None] for an exception that the clause does not match. *)
Definition res_try {A} (r : Res A) (handler : Exn -> option (Res A)) : Res A :=
  match r with
  | Return a => Return a
  | Raise e =>
      match handler e with
      | Some h => h
      | None => Raise e
      end
  end.

(** [d[key]] on a dictionary of strings. *)
Definition getitem (d : gmap string string) (key : string) : Res string :=
  match d !! key with
  | Some v => Return v
  | None => Raise (KeyError key)
  end.

(** ** Pebble layers ([ops.pebble]) *)

Record Service := mkService {
  override : string;
  service_summary : string;
  command : string;
  startup : string;
  environment : gmap string string
}.

Global Instance Service_eq_dec : EqDecision Service.
Proof. solve_decision. Defined.

Record Layer := mkLayer {
  summary : string;
  description : string;
  services : gmap string Service
}.

(** A plan that holds no service but the one of the charm, as the plan of
    a workload container that only this charm configures. *)
Definition own_plan (pl : gmap string Service) : bool :=
  bool_decide (dom pl ⊆ {[ "mlflow-server" ]}).

(** ** Relation data *)

(** The object-storage relation data, with the keys of its schema. *)
Record ObjectStorage := mkObjectStorage {
  os_access_key : string;
  os_namespace : string;
  os_port : string;
  os_secret_key : string;
  os_secure : bool;
  os_service : string
}.

(** An interface object of serialized_data_interface.  [get_data()] is a
    call on the library: [get_data n] is what it answers the n-th time that
    it is made in a pass, counting from 0; it raises (left, the text of the
    exception) or returns a dictionary, of which the code uses the values,
    in order. *)
Record Interface := mkInterface {
  get_data : nat -> string + list ObjectStorage
}.

(** The call [interface.get_data()], made for the n-th time. *)
Definition call_get_data (interface : Interface) (n : nat)
    : Res (list ObjectStorage) :=
  match get_data interface n with
  | inl e => Raise (OtherException e)
  | inr data => Return data
  end.

(** What [get_interfaces(self)] does: it raises one of its two exceptions or
    returns the dictionary from relation names to interface objects, [None]
    for a relation that is not established. *)
Inductive GetInterfaces :=
| NoVersionsListed (err : string)
| NoCompatibleVersions (err : string)
| Interfaces (interfaces : gmap string (option Interface)).

(** The dictionary that [_get_relational_db_data] returns. *)
Record DbData := mkDbData {
  host : string;
  port : string;
  username : string;
  password : string
}.

(** The arguments of the [S3BucketWrapper] constructor. *)
Record S3BucketWrapper := mkS3BucketWrapper {
  access_key : string;
  secret_access_key : string;
  s3_service : string;
  s3_port : string
}.

(** ** Constants of the module *)

Definition SECRETS_FILES : list string :=
  ["src/secrets/mlflow-minio-artifact.j2";
   "src/secrets/mlflow-seldon-rclone-secret.j2"].

Definition PODDEFAULTS_FILES : list string :=
  ["src/poddefaults/poddefault-minio.yaml.j2";
   "src/poddefaults/poddefault-mlflow.yaml.j2"].

Definition METRICS_PATH : string := "/metrics".

(** Attributes set in [__init__]. *)
Definition _container_name : string := "mlflow-server".
Definition _database_name : string := "mlflow".

(** ** The collaborators of the charm

    [services/s3.py], the template engine and Pebble's change machinery are
    outside the charm; the handler is verified for every behaviour of theirs.
    The object store is a state [S3] that [check_if_bucket_accessible] reads
    and [create_bucket] replaces, unless it raises. *)

Record Platform := mkPlatform {
  S3 : Type;
  validate_s3_bucket_name : string -> bool;
  check_if_bucket_accessible : S3BucketWrapper -> string -> S3 -> bool;
  (** [create_bucket] raises (left, the text of the exception) or leaves a
      new store. *)
  create_bucket : S3BucketWrapper -> string -> S3 -> string + S3;
  Manifest : Type;
  (** [yaml.safe_load(Template(Path(file).read_text()).render( **context))],
      which raises (left) or gives a document. *)
  load_manifest : string -> gmap string string -> string + Manifest;
  json_dumps : list Manifest -> string;
  (** [container.replan()] raises [ChangeError] with this text, if any, on a
      plan. *)
  replan_error : gmap string Service -> option string
}.

(** The inputs of a pass: what the framework, the relations and the
    configuration hold when the event is handled. *)
Record Env := mkEnv {
  is_leader : bool;
  get_interfaces : GetInterfaces;
  (** the established relations named relational-db *)
  relational_db_relations : list nat;
  (** [database.fetch_relation_data()]: relation id and fields, in order *)
  fetch_relation_data : list (nat * gmap string string);
  config_mlflow_port : string;
  config_default_artifact_root : string;
  config_create_default_artifact_root_if_missing : bool;
  app_name : string;
  model_name : string;
  can_connect : bool
}.

(** The calls that a pass makes on the outside world. *)
Inductive Effect :=
| unit_set_status (st : Status)
| s3_check_if_bucket_accessible (bucket_name : string)
| s3_create_bucket (bucket_name : string)
| container_add_layer (label : string) (layer : Layer) (combine : bool)
| container_replan
| relation_send_data (relation : string) (manifests : string).

Definition is_container_effect (e : Effect) : bool :=
  match e with
  | container_add_layer _ _ _ | container_replan => true
  | _ => false
  end.

Definition is_send_data (e : Effect) : bool :=
  match e with
  | relation_send_data _ _ => true
  | _ => false
  end.

Definition is_bucket_check (e : Effect) : bool :=
  match e with
  | s3_check_if_bucket_accessible _ => true
  | _ => false
  end.

Definition is_bucket_creation (e : Effect) : bool :=
  match e with
  | s3_create_bucket _ => true
  | _ => false
  end.

(** The status kinds that a pass sets. *)
Definition statuses_set (es : list Effect) : list StatusType :=
  flat_map (fun e => match e with
                     | unit_set_status st => [status_type st]
                     | _ => []
                     end) es.

Section Charm.

Variable P : Platform.

(** The mutable surroundings: the unit status, the plan of the workload
    container (its services) and the object store. *)
Record World := mkWorld {
  unit_status : Status;
  plan : gmap string Service;
  s3 : S3 P
}.

(** The outcome of running a piece of the handler: what it returned or
    raised, the world it left and the calls it made, oldest first. *)
Record Run (A : Type) := mkRun {
  result : Res A;
  final : World;
  effects : list Effect
}.

Arguments mkRun {A} _ _ _.
Arguments result {A} _.
Arguments final {A} _.
Arguments effects {A} _.

Definition M (A : Type) : Type := World -> Run A.

Definition ret {A} (a : A) : M A :=
  fun w => mkRun (Return a) w [].

Definition raise {A} (e : Exn) : M A :=
  fun w => mkRun (Raise e) w [].

(** A method that neither reads nor changes the surroundings. *)
Definition lift {A} (r : Res A) : M A :=
  fun w => mkRun r w [].

Definition bind {A B} (m : M A) (k : A -> M B) : M B :=
  fun w =>
    let r := m w in
    match result r with
    | Return a =>
        let r' := k a (final r) in
        mkRun (result r') (final r') (effects r ++ effects r')
    | Raise e => mkRun (Raise e) (final r) (effects r)
    end.

(** [try: m  except <class> as e: handler e]; [handler] answers [None] for
    an exception that the clause does not match. *)
Definition try_except {A} (m : M A) (handler : Exn -> option (M A)) : M A :=
  fun w =>
    let r := m w in
    match result r with
    | Return a => r
    | Raise e =>
        match handler e with
        | Some h =>
            let r' := h (final r) in
            mkRun (result r') (final r') (effects r ++ effects r')
        | None => r
        end
    end.

Notation "'do' x <- m ; k" := (bind m (fun x => k))
  (at level 10, x name, m at level 100, k at level 200).
Notation "'run' m ; k" := (bind m (fun _ => k))
  (at level 10, m at level 100, k at level 200).

(** *** Calls on the outside world *)

Definition set_status (st : Status) : M unit :=
  fun w => mkRun (Return tt) (mkWorld st (plan w) (s3 w)) [unit_set_status st].

Definition get_plan : M (gmap string Service) :=
  fun w => mkRun (Return (plan w)) w [].

(** [container.add_layer(label, layer, combine=True)]: the services of the
    layer, which override by replacement, are merged into the plan. *)
Definition add_layer (label : string) (layer : Layer) : M unit :=
  fun w =>
    mkRun (Return tt)
          (mkWorld (unit_status w) (services layer ∪ plan w) (s3 w))
          [container_add_layer label layer true].

Definition replan : M unit :=
  fun w =>
    mkRun (match replan_error P (plan w) with
           | Some err => Raise (ChangeError err)
           | None => Return tt
           end) w [container_replan].

Definition s3_wrapper_check_if_bucket_accessible
    (s3_wrapper : S3BucketWrapper) (bucket_name : string) : M bool :=
  fun w =>
    mkRun (Return (check_if_bucket_accessible P s3_wrapper bucket_name (s3 w)))
          w [s3_check_if_bucket_accessible bucket_name].

Definition s3_wrapper_create_bucket
    (s3_wrapper : S3BucketWrapper) (bucket_name : string) : M unit :=
  fun w =>
    match create_bucket P s3_wrapper bucket_name (s3 w) with
    | inr store =>
        mkRun (Return tt) (mkWorld (unit_status w) (plan w) store)
              [s3_create_bucket bucket_name]
    | inl e => mkRun (Raise (OtherException e)) w [s3_create_bucket bucket_name]
    end.

Definition send_data (relation manifests : string) : M unit :=
  fun w => mkRun (Return tt) w [relation_send_data relation manifests].

(** *** The methods of [MlflowCharm] *)

Variable env : Env.

Definition _port : string := config_mlflow_port env.

Definition s3_endpoint (object_storage_data : ObjectStorage) : string :=
  "http://" +:+ os_service object_storage_data +:+ "."
    +:+ os_namespace object_storage_data +:+ ":"
    +:+ os_port object_storage_data.

Definition _get_env_vars (relational_db_data : DbData)
    (object_storage_data : ObjectStorage) : gmap string string :=
  <["MLFLOW_S3_ENDPOINT_URL" := s3_endpoint object_storage_data]>
  (<["AWS_ENDPOINT_URL" := s3_endpoint object_storage_data]>
  (<["AWS_ACCESS_KEY_ID" := os_access_key object_storage_data]>
  (<["AWS_SECRET_ACCESS_KEY" := os_secret_key object_storage_data]>
  (<["USE_SSL" := Py.str_bool_lower (os_secure object_storage_data)]>
  (<["DB_ROOT_PASSWORD" := password relational_db_data]>
  (<["MLFLOW_TRACKING_URI" :=
       "mysql+pymysql://" +:+ username relational_db_data +:+ ":"
         +:+ password relational_db_data +:+ "@"
         +:+ host relational_db_data +:+ ":"
         +:+ port relational_db_data +:+ "/" +:+ _database_name]>
   ∅)))))).

Definition _charmed_mlflow_layer (env_vars : gmap string string)
    (default_artifact_root : string) : Layer :=
  mkLayer "mlflow-server layer" "Pebble config layer for mlflow-server"
    {[ _container_name :=
         mkService "replace" "Entrypoint of mlflow-server image"
           ("mlflow " +:+ "server " +:+ "--host " +:+ "0.0.0.0 "
              +:+ "--port " +:+ (_port +:+ " ")
              +:+ "--backend-store-uri " +:+ "$(MLFLOW_TRACKING_URI) "
              +:+ "--default-artifact-root "
              +:+ ("s3://" +:+ default_artifact_root +:+ "/ ")
              +:+ "--expose-prometheus " +:+ METRICS_PATH)
           "enabled" env_vars ]}.

Definition _get_interfaces : Res (gmap string (option Interface)) :=
  match get_interfaces env with
  | NoVersionsListed err => Raise (ErrorWithStatus err Waiting)
  | NoCompatibleVersions err => Raise (ErrorWithStatus err Blocked)
  | Interfaces interfaces => Return interfaces
  end.

(** [self.model.get_relation(name)]: [None] without a relation, the
    relation when there is one, an exception when there are several. *)
Definition get_relation : Res (option nat) :=
  match relational_db_relations env with
  | [] => Return None
  | [relation] => Return (Some relation)
  | _ => Raise (TooManyRelatedAppsError "relational-db")
  end.

(** The loop over [data.values()]. *)
Fixpoint _get_relational_db_data_loop (values : list (gmap string string))
    : Res DbData :=
  match values with
  | [] => Raise (ErrorWithStatus "Waiting for relational-db relation data" Waiting)
  | val :: rest =>
      if decide (val = ∅) then _get_relational_db_data_loop rest
      else
        endpoints ← getitem val "endpoints";
        match Py.split ":" endpoints with
        | [host; port] =>
            username ← getitem val "username";
            password ← getitem val "password";
            mret (mkDbData host port username password)
        | [] => Raise (ValueError "not enough values to unpack (expected 2, got 0)")
        | [_] => Raise (ValueError "not enough values to unpack (expected 2, got 1)")
        | _ => Raise (ValueError "too many values to unpack (expected 2)")
        end
  end.

Definition _get_relational_db_data : Res DbData :=
  mysql_relation ← get_relation;
  match mysql_relation with
  | None => Raise (ErrorWithStatus "Please add relation to the database" Blocked)
  | Some _ => _get_relational_db_data_loop (map snd (fetch_relation_data env))
  end.

Definition _get_object_storage_data
    (interfaces : gmap string (option Interface)) : Res ObjectStorage :=
  match interfaces !! "object-storage" with
  | None => Raise (KeyError "object-storage")
  | Some obj_storage =>
      match obj_storage with
      | Some interface =>
          data ← call_get_data interface 0;
          match data with
          | [] => Raise (ErrorWithStatus "Waiting for object-storage relation data" Waiting)
          | _ :: _ =>
              res_try
                (data ← call_get_data interface 1;
                 match data with
                 | [] => Raise (IndexError "list index out of range")
                 | first :: _ => Return first
                 end)
                (fun e =>
                   Some (Raise (ErrorWithStatus
                     ("Unexpected error unpacking object storage data - data format not "
                        +:+ "as expected. Caught exception: '" +:+ str_exn e +:+ "'")
                     Blocked)))
          end
      | None => Raise (ErrorWithStatus "Waiting for object-storage relation data" Waiting)
      end
  end.

Definition _create_default_s3_bucket (s3_wrapper : S3BucketWrapper)
    (bucket_name : string) : M unit :=
  try_except (s3_wrapper_create_bucket s3_wrapper bucket_name)
    (fun e =>
       Some (raise (ErrorWithStatus
         ("Error with default S3 artifact store - bucket not accessible or "
            +:+ "cannot be created.  Caught error: '" +:+ str_exn e)
         Blocked))).

Definition _validate_default_s3_bucket_name_and_access (bucket_name : string)
    (s3_wrapper : S3BucketWrapper) : M bool :=
  if negb (validate_s3_bucket_name P bucket_name) then
    raise (ErrorWithStatus
      ("Invalid value for config default_artifact_root '" +:+ bucket_name +:+ "'"
         +:+ " - value must be a valid S3 bucket name")
      Blocked)
  else
    do accessible <- s3_wrapper_check_if_bucket_accessible s3_wrapper bucket_name;
    if negb accessible && negb (config_create_default_artifact_root_if_missing env) then
      raise (ErrorWithStatus
        ("Error with default S3 artifact store - bucket not accessible or does not "
           +:+ "exist. Set create_default_artifact_root_if_missing=True to automatically "
           +:+ "create a missing default bucket")
        Blocked)
    else
      do accessible <- s3_wrapper_check_if_bucket_accessible s3_wrapper bucket_name;
      if negb accessible && config_create_default_artifact_root_if_missing env then
        ret false
      else ret true.

Definition _check_leader : Res unit :=
  if negb (is_leader env) then
    Raise (ErrorWithStatus "Waiting for leadership" Waiting)
  else Return tt.

Definition _update_layer (envs : gmap string string)
    (default_artifact_root : string) : M unit :=
  do current_layer <- get_plan;
  let new_layer := _charmed_mlflow_layer envs default_artifact_root in
  if decide (current_layer ≠ services new_layer) then
    run set_status (MaintenanceStatus "Applying new pebble layer");
    run add_layer _container_name new_layer;
    try_except replan
      (fun e =>
         match e with
         | ChangeError err =>
             Some (raise (ErrorWithStatus
               ("Failed to replan with error: " +:+ err) Blocked))
         | _ => None
         end)
  else ret tt.

Fixpoint _create_manifests_loop (manifest_files : list string)
    (context : gmap string string) : Res (list (Manifest P)) :=
  match manifest_files with
  | [] => Return []
  | file :: files =>
      match load_manifest P file context with
      | inl e => Raise (OtherException e)
      | inr manifest =>
          manifests ← _create_manifests_loop files context;
          mret (manifest :: manifests)
      end
  end.

Definition _create_manifests (manifest_files : list string)
    (context : gmap string string) : Res string :=
  manifests ← _create_manifests_loop manifest_files context;
  mret (json_dumps P manifests).

Definition _send_manifests (interfaces : gmap string (option Interface))
    (context : gmap string string) (manifest_files : list string)
    (relation : string) : M unit :=
  match interfaces !! relation with
  | Some (Some _) =>
      do manifests <- lift (_create_manifests manifest_files context);
      send_data relation manifests
  | _ => ret tt
  end.

Definition _on_database_relation_removed : M unit :=
  set_status (BlockedStatus "Please add relation to the database").

(** The wrapper that [_on_event] builds from the object-storage data. *)
Definition _on_event_s3_wrapper (object_storage_data : ObjectStorage)
    : S3BucketWrapper :=
  mkS3BucketWrapper
    (os_access_key object_storage_data)
    (os_secret_key object_storage_data)
    (os_service object_storage_data +:+ "." +:+ os_namespace object_storage_data)
    (os_port object_storage_data).

(** The bucket check of [_on_event]: the bucket is created when the
    validation answers that it is missing and may be created. *)
Definition _on_event_bucket (s3_wrapper : S3BucketWrapper)
    (bucket_name : string) : M unit :=
  do accessible <- _validate_default_s3_bucket_name_and_access bucket_name s3_wrapper;
  if negb accessible then _create_default_s3_bucket s3_wrapper bucket_name
  else ret tt.

(** The two context dictionaries of [_on_event]. *)
Definition _on_event_secrets_context (object_storage_data : ObjectStorage)
    : gmap string string :=
  <["app_name" := app_name env]>
  (<["s3_endpoint" := s3_endpoint object_storage_data]>
  (<["s3_type" := "s3"]>
  (<["s3_provider" := "minio"]>
  (<["access_key" := os_access_key object_storage_data]>
  (<["secret_access_key" := os_secret_key object_storage_data]> ∅))))).

Definition _on_event_poddefaults_context (s3_endpoint : string)
    : gmap string string :=
  <["app_name" := app_name env]>
  (<["s3_endpoint" := s3_endpoint]>
  (<["mlflow_endpoint" :=
       "http://" +:+ app_name env +:+ "." +:+ model_name env
         +:+ ".svc.cluster.local:" +:+ _port]> ∅)).

(** The statements of [_on_event] inside its [try]. *)
Definition _on_event_body : M unit :=
  run lift _check_leader;
  do interfaces <- lift _get_interfaces;
  do object_storage_data <- lift (_get_object_storage_data interfaces);
  do relational_db_data <- lift _get_relational_db_data;
  let envs := _get_env_vars relational_db_data object_storage_data in
  let s3_wrapper := _on_event_s3_wrapper object_storage_data in
  let bucket_name := config_default_artifact_root env in
  run _on_event_bucket s3_wrapper bucket_name;
  run _update_layer envs bucket_name;
  let secrets_context := _on_event_secrets_context object_storage_data in
  let poddefaults_context :=
    _on_event_poddefaults_context (secrets_context !!! "s3_endpoint") in
  run _send_manifests interfaces secrets_context SECRETS_FILES "secrets";
  _send_manifests interfaces poddefaults_context PODDEFAULTS_FILES "pod-defaults".

(** Two views of the body, for the proofs: the statements that gather the
    inputs, which only read, and the statements that act on them. *)
Definition _on_event_inputs
    : Res (gmap string (option Interface) * ObjectStorage * DbData) :=
  _ ← _check_leader;
  interfaces ← _get_interfaces;
  object_storage_data ← _get_object_storage_data interfaces;
  relational_db_data ← _get_relational_db_data;
  mret (interfaces, object_storage_data, relational_db_data).

Definition _on_event_publish (interfaces : gmap string (option Interface))
    (object_storage_data : ObjectStorage) : M unit :=
  let secrets_context := _on_event_secrets_context object_storage_data in
  let poddefaults_context :=
    _on_event_poddefaults_context (secrets_context !!! "s3_endpoint") in
  run _send_manifests interfaces secrets_context SECRETS_FILES "secrets";
  _send_manifests interfaces poddefaults_context PODDEFAULTS_FILES "pod-defaults".

(** A world on which a pass has nothing to do on the container: with the
    inputs at hand, its plan is the one of the layer, or its object store
    makes the bucket check raise. *)
Definition settled (w : World) : Prop :=
  ∀ interfaces object_storage_data relational_db_data,
    _on_event_inputs
    = Return (interfaces, object_storage_data, relational_db_data) →
    plan w = services (_charmed_mlflow_layer
                         (_get_env_vars relational_db_data object_storage_data)
                         (config_default_artifact_root env))
    ∨ ∃ msg es, ∀ st pl,
        _on_event_bucket (_on_event_s3_wrapper object_storage_data)
          (config_default_artifact_root env) (mkWorld st pl (s3 w))
        = mkRun (Raise (ErrorWithStatus msg Blocked)) (mkWorld st pl (s3 w)) es.

Definition _on_event_actions (interfaces : gmap string (option Interface))
    (object_storage_data : ObjectStorage) (relational_db_data : DbData)
    : M unit :=
  run _on_event_bucket (_on_event_s3_wrapper object_storage_data)
        (config_default_artifact_root env);
  run _update_layer (_get_env_vars relational_db_data object_storage_data)
        (config_default_artifact_root env);
  _on_event_publish interfaces object_storage_data.

(** [_on_event]: the body under [try]; [except ErrorWithStatus] sets the
    status of the error and returns, any other exception propagates, and a
    body that completes is followed by the active status. *)
Definition _on_event : M unit :=
  do completed <-
    try_except (run _on_event_body; ret true)
      (fun err =>
         match err with
         | ErrorWithStatus msg st =>
             Some (run set_status (status_of_error msg st); ret false)
         | _ => None
         end);
  if completed : bool then set_status ActiveStatus else ret tt.

Definition _on_pebble_ready : M unit :=
  if negb (can_connect env) then
    raise (ErrorWithStatus "Pebble is ready and container is not ready" Blocked)
  else _on_event.

End Charm.

Arguments mkRun {P A} _ _ _.
Arguments result {P A} _.
Arguments final {P A} _.
Arguments effects {P A} _.
Arguments mkWorld {P} _ _ _.
Arguments unit_status {P} _.
Arguments plan {P} _.
Arguments s3 {P} _.

(** ** The action get-minio-password

    The handler reads two attributes of the charm, [grafana_service] and
    [_get_admin_password], and the option admin_user of the configuration.
    An attribute is [None] when the instance does not bind the name; where it
    is bound, a call on it returns or raises. *)

Record GrafanaService := mkGrafanaService {
  is_ready : Res bool;
  password_has_been_changed : string -> string -> Res bool
}.

Record Charm := mkCharm {
  grafana_service : option GrafanaService;
  _get_admin_password : option (Res string);
  config : gmap string string
}.

(** The action event: the failure that [event.fail] records and the
    results that [event.set_results] records. *)
Record ActionEvent := mkActionEvent {
  failure : option string;
  results : option (gmap string string)
}.

Definition fail (event : ActionEvent) (msg : string) : ActionEvent :=
  mkActionEvent (Some msg) (results event).

Definition set_results (event : ActionEvent) (res : gmap string string)
    : ActionEvent :=
  mkActionEvent (failure event) (Some res).

(** [self.name]: the value bound to the name, or [AttributeError]. *)
Definition getattr {A} (name : string) (value : option A) : Res A :=
  match value with
  | Some v => Return v
  | None =>
      Raise (AttributeError
        ("'MlflowCharm' object has no attribute '" +:+ name +:+ "'"))
  end.

(** The handler leaves the event that it was given, or raises. *)
Definition _on_get_minio_password (self : Charm) (event : ActionEvent)
    : Res ActionEvent :=
  service ← getattr "grafana_service" (grafana_service self);
  ready ← is_ready service;
  if negb (ready : bool) then
    mret (fail event "Grafana is not reachable yet. Please try again in a few minutes")
  else
    service ← getattr "grafana_service" (grafana_service self);
    admin_user ← getitem (config self) "admin_user";
    get_password ← getattr "_get_admin_password" (_get_admin_password self);
    admin_password ← get_password;
    changed ← password_has_been_changed service admin_user admin_password;
    if changed : bool then
      mret (set_results event
              {[ "admin-password" := "Admin password has been changed by an administrator" ]})
    else
      get_password ← getattr "_get_admin_password" (_get_admin_password self);
      admin_password ← get_password;
      mret (set_results event {[ "admin-password" := admin_password ]}).

(** The instance that the handlers of the class [MlflowCharm] are given:
    [__init__] assigns [logger], [_port], [_container_name],
    [_database_name], [_container], [database], [service_patcher] and
    [prometheus_provider], the class body binds [container] and the methods;
    neither [grafana_service] nor [_get_admin_password] is among them, and
    the base class of the framework has neither.  Read as it is written,
    [__init__] does not get that far: its second statement is the bare read
    [self.env] of a name that nothing binds either, which raises
    [AttributeError] before any of the assignments.  The handlers are
    modelled on the instance on which the assignments have been made, so
    the [AttributeError] of the action handler is the one that remains once
    that read is gone. *)
Definition MlflowCharm (config : gmap string string) : Charm :=
  mkCharm None None config.

(** ** A concrete platform and concrete inputs

    An object store that is the list of its buckets and refuses to create
    the bucket named forbidden, manifests that are the names of their
    files, and a Pebble whose replan fails when [replan_fails] is set. *)

Module Demo.

Definition platform (replan_fails : bool) : Platform :=
  mkPlatform
    (list string)
    (fun name => (3 <=? String.length name)%nat && (String.length name <=? 63)%nat)
    (fun _ name store => bool_decide (name ∈ store))
    (fun _ name store =>
       if String.eqb name "forbidden" then inl "AccessDenied"
       else inr (name :: store))
    string
    (fun file _ => inr file)
    (fun manifests => String.concat "," manifests)
    (fun _ => if replan_fails then Some "cannot start service" else None).

Definition object_storage : ObjectStorage :=
  mkObjectStorage "minio-access-key" "namespace" "1234"
    "minio-super-secret-key" true "service".

Definition interfaces : gmap string (option Interface) :=
  <["object-storage" := Some (mkInterface (fun _ => inr [object_storage]))]>
  (<["secrets" := Some (mkInterface (fun _ => inr []))]>
  (<["pod-defaults" := None]> ∅)).

Definition db_fields : gmap string string :=
  <["endpoints" := "mysql-k8s:3306"]>
  (<["username" := "relation-7"]>
  (<["password" := "lorem-ipsum"]> ∅)).

(** Leader, all relations established and populated. *)
Definition env (bucket : string) (create_if_missing : bool) : Env :=
  mkEnv true (Interfaces interfaces) [7] [(7, db_fields)]
    "5000" bucket create_if_missing "mlflow-server" "kubeflow" true.

(** The same without leadership. *)
Definition env_not_leader : Env :=
  mkEnv false (Interfaces interfaces) [7] [(7, db_fields)]
    "5000" "mlflow" true "mlflow-server" "kubeflow" true.

(** Leader with object storage, no database relation. *)
Definition env_no_database : Env :=
  mkEnv true (Interfaces interfaces) [] []
    "5000" "mlflow" true "mlflow-server" "kubeflow" true.

(** Leader, database relation established, no data in it yet. *)
Definition env_database_empty : Env :=
  mkEnv true (Interfaces interfaces) [7] [(7, ∅)]
    "5000" "mlflow" true "mlflow-server" "kubeflow" true.

(** Leader, the endpoints of the database without a port. *)
Definition env_bad_endpoints : Env :=
  mkEnv true (Interfaces interfaces) [7]
    [(7, <["endpoints" := "mysql-k8s"]> db_fields)]
    "5000" "mlflow" true "mlflow-server" "kubeflow" true.

(** A unit that has just started: no status yet, an empty plan and an
    object store with the given buckets. *)
Definition fresh (replan_fails : bool) (buckets : list string)
    : World (platform replan_fails) :=
  @mkWorld (platform replan_fails) (mkStatus Unknown "") ∅ buckets.

(** A container whose plan holds a service of another layer, as one of
    an image that brings its own Pebble layer does. *)
Definition with_other_service : World (platform false) :=
  @mkWorld (platform false) (mkStatus Unknown "")
    {[ "nginx" := mkService "replace" "proxy" "nginx -g daemon-off" "enabled" ∅ ]}
    ["mlflow"].

(** A charm object that does bind what the action handler reads. *)
Definition charm_with_grafana (ready changed : bool) : Charm :=
  mkCharm
    (Some (mkGrafanaService (Return ready) (fun _ _ => Return changed)))
    (Some (Return "s3cret"))
    {[ "admin_user" := "admin" ]}.

Definition event : ActionEvent := mkActionEvent None None.

(** Leader, the data of the database without a password. *)
Definition env_missing_password : Env :=
  mkEnv true (Interfaces interfaces) [7]
    [(7, <["endpoints" := "mysql-k8s:3306"]> (<["username" := "relation-7"]> ∅))]
    "5000" "mlflow" true "mlflow-server" "kubeflow" true.


(** A platform whose second secrets template does not render. *)
Definition platform_broken_template : Platform :=
  mkPlatform
    (list string)
    (fun name => (3 <=? String.length name)%nat && (String.length name <=? 63)%nat)
    (fun _ name store => bool_decide (name ∈ store))
    (fun _ name store => inr (name :: store))
    string
    (fun file _ =>
       if String.eqb file "src/secrets/mlflow-seldon-rclone-secret.j2"
       then inl "TemplateSyntaxError" else inr file)
    (fun manifests => String.concat "," manifests)
    (fun _ => None).

(** An object-storage interface whose data are gone when they are asked
    for a second time. *)
Definition interfaces_losing_data : gmap string (option Interface) :=
  {[ "object-storage" :=
       Some (mkInterface (fun n => match n with
                                   | 0 => inr [object_storage]
                                   | _ => inr []
                                   end)) ]}.

(** A charm object whose Grafana is ready and does not answer the check of
    the password. *)
Definition charm_with_silent_grafana : Charm :=
  mkCharm
    (Some (mkGrafanaService (Return true)
             (fun _ _ => Raise (OtherException "connection refused"))))
    (Some (Return "s3cret"))
    {[ "admin_user" := "admin" ]}.

End Demo.

(** * Properties *)

(** ** Splitting and joining *)

Lemma append_assoc (a b c : string) : (a +:+ b) +:+ c = a +:+ (b +:+ c).
Proof.
  induction a as [|x a IH]; [reflexivity|].
  change (String x ((a +:+ b) +:+ c) = String x (a +:+ (b +:+ c))).
  by rewrite IH.
Qed.

Lemma split_not_nil (sep : ascii) (s : string) : Py.split sep s ≠ [].
Proof.
  destruct s as [|c s]; simpl; [discriminate|].
  destruct (Ascii.eqb c sep); [discriminate|].
  destruct (Py.split sep s); discriminate.
Qed.

(** A string with n separators splits into n + 1 pieces. *)
Lemma length_split (sep : ascii) (s : string) :
  length (Py.split sep s) = S (Py.count sep s).
Proof.
  induction s as [|c s IH]; simpl; [reflexivity|].
  destruct (Ascii.eqb c sep); simpl.
  - by rewrite IH.
  - destruct (Py.split sep s) as [|piece pieces] eqn:E.
    + by destruct (split_not_nil sep s).
    + simpl in *. exact IH.
Qed.

(** Joining the pieces with the separator gives the string back. *)
Lemma join_split (sep : ascii) (s : string) :
  Py.join sep (Py.split sep s) = s.
Proof.
  induction s as [|c s IH]; simpl; [reflexivity|].
  destruct (Ascii.eqb c sep) eqn:Ec.
  - apply Ascii.eqb_eq in Ec. subst c.
    destruct (Py.split sep s) as [|piece pieces] eqn:E.
    + by destruct (split_not_nil sep s).
    + simpl. by rewrite <- IH.
  - destruct (Py.split sep s) as [|piece pieces] eqn:E.
    + by destruct (split_not_nil sep s).
    + rewrite <- IH. by destruct pieces.
Qed.

(** The unpacking [host, port = s.split(sep)] succeeds exactly on a string
    with one separator, and then [host], the separator and [port] make up
    the string. *)
Lemma split_pair (sep : ascii) (s h p : string) :
  Py.split sep s = [h; p] → Py.count sep s = 1 ∧ s = h +:+ String sep p.
Proof.
  intros E. split.
  - pose proof (length_split sep s) as L. rewrite E in L. simpl in L. lia.
  - rewrite <- (join_split sep s) at 1. by rewrite E.
Qed.

Lemma split_pair_exists (sep : ascii) (s : string) :
  Py.count sep s = 1 → ∃ h p, Py.split sep s = [h; p].
Proof.
  intros C. pose proof (length_split sep s) as L. rewrite C in L.
  destruct (Py.split sep s) as [|h [|p [|q rest]]]; simpl in L; try lia.
  by exists h, p.
Qed.

(** ** Running the handler step by step *)

Ltac run_simpl :=
  cbn [negb andb result final effects plan s3 unit_status app].

Section Steps.

Variable P : Platform.
Variable env : Env.

Lemma bind_lift_Return {A B} (a : A) (k : A → M P B) (w : World P) :
  bind P (lift P (Return a)) k w = k a w.
Proof. unfold bind, lift. simpl. by destruct (k a w). Qed.

Lemma bind_lift_Raise {A B} (e : Exn) (k : A → M P B) (w : World P) :
  bind P (lift P (Raise e)) k w = mkRun (Raise e) w [].
Proof. reflexivity. Qed.

Lemma bind_Return {A B} (m : M P A) (k : A → M P B) (w w' : World P) a es :
  m w = mkRun (Return a) w' es →
  bind P m k w =
    mkRun (result (k a w')) (final (k a w')) (es ++ effects (k a w')).
Proof. intros E. unfold bind. by rewrite E. Qed.

Lemma bind_Raise {A B} (m : M P A) (k : A → M P B) (w w' : World P) e es :
  m w = mkRun (Raise e) w' es →
  bind P m k w = mkRun (Raise e) w' es.
Proof. intros E. unfold bind. by rewrite E. Qed.

(** *** The methods that only read *)

Lemma _check_leader_status msg st :
  _check_leader env = Raise (ErrorWithStatus msg st) → st = Waiting.
Proof. unfold _check_leader. destruct (is_leader env); simpl; congruence. Qed.

Lemma _get_interfaces_status msg st :
  _get_interfaces env = Raise (ErrorWithStatus msg st) →
  st = Waiting ∨ st = Blocked.
Proof.
  unfold _get_interfaces. destruct (get_interfaces env); intros [= _ <-]; auto.
Qed.

Lemma _get_object_storage_data_status interfaces msg st :
  _get_object_storage_data interfaces = Raise (ErrorWithStatus msg st) →
  st = Waiting ∨ st = Blocked.
Proof.
  unfold _get_object_storage_data, call_get_data.
  destruct (interfaces !! "object-storage") as [[interface|]|]; simpl;
    try (intros [= _ <-]; by auto).
  destruct (get_data interface 0) as [e|[|first rest]]; simpl;
    try (intros [= _ <-]; by auto); try discriminate.
  destruct (get_data interface 1) as [e|[|again rest']]; simpl;
    try (intros [= _ <-]; by auto); discriminate.
Qed.

Lemma _get_relational_db_data_loop_status values msg st :
  _get_relational_db_data_loop values = Raise (ErrorWithStatus msg st) →
  st = Waiting.
Proof.
  induction values as [|val rest IH]; simpl; [by intros [= _ <-]|].
  destruct (decide (val = ∅)); [exact IH|].
  unfold getitem.
  destruct (val !! "endpoints"); simpl; [|discriminate].
  destruct (Py.split ":" s) as [|h [|p [|q more]]]; try discriminate.
  destruct (val !! "username"); simpl; [|discriminate].
  destruct (val !! "password"); simpl; discriminate.
Qed.

Lemma _get_relational_db_data_status msg st :
  _get_relational_db_data env = Raise (ErrorWithStatus msg st) →
  st = Waiting ∨ st = Blocked.
Proof.
  unfold _get_relational_db_data, get_relation.
  destruct (relational_db_relations env) as [|r [|r' more]]; simpl.
  - intros [= _ <-]; auto.
  - intros E. left. by eapply _get_relational_db_data_loop_status.
  - discriminate.
Qed.

Lemma _create_manifests_not_status files context msg st :
  _create_manifests P files context ≠ Raise (ErrorWithStatus msg st).
Proof.
  unfold _create_manifests.
  assert (H : ∀ files, _create_manifests_loop P files context
                       ≠ Raise (ErrorWithStatus msg st)).
  { clear files. induction files as [|file files IH]; simpl; [discriminate|].
    destruct (load_manifest P file context); [discriminate|].
    destruct (_create_manifests_loop P files context); simpl; [discriminate|].
    congruence. }
  specialize (H files).
  destruct (_create_manifests_loop P files context); simpl; [discriminate|].
  congruence.
Qed.

(** *** The methods that act *)

(** What [_send_manifests] does: nothing, or one [send_data] on the
    relation; it changes nothing in the surroundings and raises only what
    the rendering of a manifest raises. *)
Lemma _send_manifests_run interfaces context files relation :
  ∃ res es,
    (∀ w, _send_manifests P interfaces context files relation w = mkRun res w es)
    ∧ (es = [] ∨ ∃ manifests, es = [relation_send_data relation manifests])
    ∧ (∀ msg st, res ≠ Raise (ErrorWithStatus msg st)).
Proof.
  unfold _send_manifests.
  destruct (interfaces !! relation) as [[interface|]|].
  - pose proof (_create_manifests_not_status files context) as N.
    destruct (_create_manifests P files context) as [manifests|e] eqn:E.
    + exists (Return tt), [relation_send_data relation manifests].
      split; [|split]; [by intros w | eauto | discriminate].
    + exists (Raise e), [].
      split; [|split]; [by intros w | auto |].
      intros msg st [= ->]. by apply (N msg st).
  - exists (Return tt), []. split; [|split]; [by intros w | auto | discriminate].
  - exists (Return tt), []. split; [|split]; [by intros w | auto | discriminate].
Qed.

(** What [_update_layer] does: nothing when the services of the plan are
    those of the new layer; otherwise it sets the maintenance status, adds
    the layer and replans, and a [ChangeError] of the replan becomes an
    [ErrorWithStatus] of a blocked status. *)
Lemma _update_layer_run envs bucket (w : World P) :
  let new_layer := _charmed_mlflow_layer env envs bucket in
  _update_layer P env envs bucket w =
    if decide (plan w = services new_layer) then mkRun (Return tt) w []
    else
      mkRun
        (match replan_error P (services new_layer ∪ plan w) with
         | Some err =>
             Raise (ErrorWithStatus ("Failed to replan with error: " +:+ err) Blocked)
         | None => Return tt
         end)
        (mkWorld (MaintenanceStatus "Applying new pebble layer")
                 (services new_layer ∪ plan w) (s3 w))
        [unit_set_status (MaintenanceStatus "Applying new pebble layer");
         container_add_layer _container_name new_layer true;
         container_replan].
Proof.
  intros new_layer. unfold _update_layer. fold new_layer.
  generalize new_layer. clear new_layer. intros new_layer.
  unfold bind at 1, get_plan. cbn [result final effects].
  destruct (decide (plan w ≠ services new_layer)) as [N|N];
    destruct (decide (plan w = services new_layer)) as [E|E]; try done.
  unfold try_except, replan, bind, set_status, add_layer, raise.
    cbn [result final effects plan s3 unit_status app].
    by destruct (replan_error P (services new_layer ∪ plan w)).
Qed.

(** What the bucket check does, case by case. *)

Lemma _on_event_bucket_invalid s3_wrapper bucket (w : World P) :
  validate_s3_bucket_name P bucket = false →
  _on_event_bucket P env s3_wrapper bucket w =
    mkRun
      (Raise (ErrorWithStatus
         ("Invalid value for config default_artifact_root '" +:+ bucket +:+ "'"
            +:+ " - value must be a valid S3 bucket name") Blocked))
      w [].
Proof.
  intros V. unfold _on_event_bucket, _validate_default_s3_bucket_name_and_access.
  by rewrite V.
Qed.

Lemma _on_event_bucket_accessible s3_wrapper bucket (w : World P) :
  validate_s3_bucket_name P bucket = true →
  check_if_bucket_accessible P s3_wrapper bucket (s3 w) = true →
  _on_event_bucket P env s3_wrapper bucket w =
    mkRun (Return tt) w
      [s3_check_if_bucket_accessible bucket; s3_check_if_bucket_accessible bucket].
Proof.
  intros V C. unfold _on_event_bucket, _validate_default_s3_bucket_name_and_access.
  rewrite V. unfold bind, s3_wrapper_check_if_bucket_accessible, ret. run_simpl.
  rewrite C. run_simpl. rewrite C. by run_simpl.
Qed.

Lemma _on_event_bucket_missing s3_wrapper bucket (w : World P) :
  validate_s3_bucket_name P bucket = true →
  check_if_bucket_accessible P s3_wrapper bucket (s3 w) = false →
  config_create_default_artifact_root_if_missing env = false →
  _on_event_bucket P env s3_wrapper bucket w =
    mkRun
      (Raise (ErrorWithStatus
         ("Error with default S3 artifact store - bucket not accessible or does not "
            +:+ "exist. Set create_default_artifact_root_if_missing=True to automatically "
            +:+ "create a missing default bucket") Blocked))
      w [s3_check_if_bucket_accessible bucket].
Proof.
  intros V C F. unfold _on_event_bucket, _validate_default_s3_bucket_name_and_access.
  rewrite V, F. unfold bind, s3_wrapper_check_if_bucket_accessible, raise. run_simpl.
  rewrite C. by run_simpl.
Qed.

Lemma _on_event_bucket_created s3_wrapper bucket (w : World P) store :
  validate_s3_bucket_name P bucket = true →
  check_if_bucket_accessible P s3_wrapper bucket (s3 w) = false →
  config_create_default_artifact_root_if_missing env = true →
  create_bucket P s3_wrapper bucket (s3 w) = inr store →
  _on_event_bucket P env s3_wrapper bucket w =
    mkRun (Return tt) (mkWorld (unit_status w) (plan w) store)
      [s3_check_if_bucket_accessible bucket; s3_check_if_bucket_accessible bucket;
       s3_create_bucket bucket].
Proof.
  intros V C F B. unfold _on_event_bucket, _validate_default_s3_bucket_name_and_access.
  rewrite V, F.
  unfold bind, s3_wrapper_check_if_bucket_accessible, ret,
    _create_default_s3_bucket, try_except, s3_wrapper_create_bucket.
  run_simpl. rewrite C. run_simpl. rewrite C. run_simpl. rewrite B. by run_simpl.
Qed.

Lemma _on_event_bucket_not_created s3_wrapper bucket (w : World P) e :
  validate_s3_bucket_name P bucket = true →
  check_if_bucket_accessible P s3_wrapper bucket (s3 w) = false →
  config_create_default_artifact_root_if_missing env = true →
  create_bucket P s3_wrapper bucket (s3 w) = inl e →
  _on_event_bucket P env s3_wrapper bucket w =
    mkRun
      (Raise (ErrorWithStatus
         ("Error with default S3 artifact store - bucket not accessible or "
            +:+ "cannot be created.  Caught error: '" +:+ e) Blocked))
      w
      [s3_check_if_bucket_accessible bucket; s3_check_if_bucket_accessible bucket;
       s3_create_bucket bucket].
Proof.
  intros V C F B. unfold _on_event_bucket, _validate_default_s3_bucket_name_and_access.
  rewrite V, F.
  unfold bind, s3_wrapper_check_if_bucket_accessible, ret, raise,
    _create_default_s3_bucket, try_except, s3_wrapper_create_bucket.
  run_simpl. rewrite C. run_simpl. rewrite C. run_simpl. rewrite B. by run_simpl.
Qed.

(** In all: the bucket check is a function of the object store alone; it
    leaves the status and the plan as they are, calls only the object
    store, and either completes, possibly with a new store, or raises an
    [ErrorWithStatus] of a blocked status and leaves the store. *)
Lemma _on_event_bucket_run s3_wrapper bucket (store : S3 P) :
  ∃ res store' es,
    (∀ st pl, _on_event_bucket P env s3_wrapper bucket (mkWorld st pl store)
              = mkRun res (mkWorld st pl store') es)
    ∧ (res = Return tt ∨ (∃ msg, res = Raise (ErrorWithStatus msg Blocked)) ∧ store' = store)
    ∧ Forall (λ e, is_bucket_check e || is_bucket_creation e = true) es.
Proof.
  destruct (validate_s3_bucket_name P bucket) eqn:V.
  2:{ eexists _, store, _. split; [|split].
      - intros st pl. by apply _on_event_bucket_invalid.
      - right. eauto.
      - constructor. }
  destruct (check_if_bucket_accessible P s3_wrapper bucket store) eqn:C.
  { eexists _, store, _. split; [|split].
    - intros st pl. by apply _on_event_bucket_accessible.
    - by left.
    - repeat constructor. }
  destruct (config_create_default_artifact_root_if_missing env) eqn:F.
  2:{ eexists _, store, _. split; [|split].
      - intros st pl. by apply _on_event_bucket_missing.
      - right. eauto.
      - repeat constructor. }
  destruct (create_bucket P s3_wrapper bucket store) as [e|store'] eqn:B.
  - eexists _, store, _. split; [|split].
    + intros st pl. by apply _on_event_bucket_not_created.
    + right. eauto.
    + repeat constructor.
  - eexists _, store', _. split; [|split].
    + intros st pl. by apply _on_event_bucket_created.
    + by left.
    + repeat constructor.
Qed.

Lemma _on_event_publish_run interfaces object_storage_data :
  ∃ res es,
    (∀ w, _on_event_publish P env interfaces object_storage_data w = mkRun res w es)
    ∧ Forall (λ e, is_send_data e = true) es
    ∧ (∀ msg st, res ≠ Raise (ErrorWithStatus msg st)).
Proof.
  unfold _on_event_publish.
  destruct (_send_manifests_run interfaces
              (_on_event_secrets_context env object_storage_data)
              SECRETS_FILES "secrets") as (res1 & es1 & R1 & S1 & N1).
  destruct (_send_manifests_run interfaces
              (_on_event_poddefaults_context env
                 (_on_event_secrets_context env object_storage_data !!! "s3_endpoint"))
              PODDEFAULTS_FILES "pod-defaults") as (res2 & es2 & R2 & S2 & N2).
  assert (F1 : Forall (λ e, is_send_data e = true) es1).
  { destruct S1 as [->|[m ->]]; repeat constructor. }
  assert (F2 : Forall (λ e, is_send_data e = true) es2).
  { destruct S2 as [->|[m ->]]; repeat constructor. }
  destruct res1 as [[]|e1].
  - exists res2, (es1 ++ es2). split; [|split; [by apply Forall_app|done]].
    intros w. rewrite (bind_Return _ _ w w tt es1 (R1 w)). by rewrite R2.
  - exists (Raise e1), es1. split; [|split; [done|]].
    + intros w. by rewrite (bind_Raise _ _ w w e1 es1 (R1 w)).
    + intros msg st [= ->]. by apply (N1 msg st).
Qed.

(** The body is its two views in sequence. *)
Lemma _on_event_body_views (w : World P) :
  _on_event_body P env w =
    match _on_event_inputs env with
    | Return (interfaces, object_storage_data, relational_db_data) =>
        _on_event_actions P env interfaces object_storage_data relational_db_data w
    | Raise e => mkRun (Raise e) w []
    end.
Proof.
  unfold _on_event_body, _on_event_inputs.
  destruct (_check_leader env) as [[]|e]; [|done].
  rewrite bind_lift_Return. simpl.
  destruct (_get_interfaces env) as [interfaces|e]; [|done].
  rewrite bind_lift_Return. simpl.
  destruct (_get_object_storage_data interfaces) as [os|e]; [|done].
  rewrite bind_lift_Return. simpl.
  destruct (_get_relational_db_data env) as [db|e]; [|done].
  rewrite bind_lift_Return. simpl.
  reflexivity.
Qed.

(** An [ErrorWithStatus] that the inputs raise carries a waiting or a
    blocked status. *)
Lemma _on_event_inputs_status msg st :
  _on_event_inputs env = Raise (ErrorWithStatus msg st) →
  st = Waiting ∨ st = Blocked.
Proof.
  unfold _on_event_inputs.
  destruct (_check_leader env) as [[]|e] eqn:E1; simpl.
  2:{ intros [= ->]. left. by eapply _check_leader_status. }
  destruct (_get_interfaces env) as [interfaces|e] eqn:E2; simpl.
  2:{ intros [= ->]. by eapply _get_interfaces_status. }
  destruct (_get_object_storage_data interfaces) as [os|e] eqn:E3; simpl.
  2:{ intros [= ->]. by eapply _get_object_storage_data_status. }
  destruct (_get_relational_db_data env) as [db|e] eqn:E4; simpl.
  2:{ intros [= ->]. by eapply _get_relational_db_data_status. }
  discriminate.
Qed.

(** What the handler makes of its body: the active status after a body
    that completes, the status of a caught [ErrorWithStatus], and nothing
    after any other exception, which propagates. *)
Lemma _on_event_run (w : World P) :
  _on_event P env w =
    let r := _on_event_body P env w in
    match result r with
    | Return _ =>
        mkRun (Return tt)
          (mkWorld ActiveStatus (plan (final r)) (s3 (final r)))
          (effects r ++ [unit_set_status ActiveStatus])
    | Raise (ErrorWithStatus msg st) =>
        mkRun (Return tt)
          (mkWorld (status_of_error msg st) (plan (final r)) (s3 (final r)))
          (effects r ++ [unit_set_status (status_of_error msg st)])
    | Raise e => mkRun (Raise e) (final r) (effects r)
    end.
Proof.
  unfold _on_event, try_except, bind, ret, set_status. run_simpl.
  destruct (_on_event_body P env w) as [[[]|e] w' es]; run_simpl.
  - by rewrite app_nil_r.
  - destruct e; run_simpl; try reflexivity.
    by rewrite !app_nil_r.
Qed.

(** The acting statements after a bucket check that raises: nothing. *)
Lemma _on_event_actions_bucket_raises interfaces object_storage_data
    relational_db_data (w w1 : World P) e bucket_es :
  _on_event_bucket P env (_on_event_s3_wrapper object_storage_data)
    (config_default_artifact_root env) w = mkRun (Raise e) w1 bucket_es →
  _on_event_actions P env interfaces object_storage_data relational_db_data w
  = mkRun (Raise e) w1 bucket_es.
Proof. intros B. unfold _on_event_actions. by rewrite (bind_Raise _ _ _ _ _ _ B). Qed.

(** The acting statements after a bucket check that completes: the layer
    is left alone or applied, and the manifests are published unless the
    replan fails. *)
Lemma _on_event_actions_bucket_returns interfaces object_storage_data
    relational_db_data (w w1 : World P) bucket_es :
  let new_layer :=
    _charmed_mlflow_layer env
      (_get_env_vars relational_db_data object_storage_data)
      (config_default_artifact_root env) in
  let applying :=
    [unit_set_status (MaintenanceStatus "Applying new pebble layer");
     container_add_layer _container_name new_layer true;
     container_replan] in
  _on_event_bucket P env (_on_event_s3_wrapper object_storage_data)
    (config_default_artifact_root env) w = mkRun (Return tt) w1 bucket_es →
  ∃ publish_res publish_es,
    Forall (λ e, is_send_data e = true) publish_es
    ∧ (∀ msg st, publish_res ≠ Raise (ErrorWithStatus msg st))
    ∧ _on_event_actions P env interfaces object_storage_data relational_db_data w =
        if decide (plan w1 = services new_layer) then
          mkRun publish_res w1 (bucket_es ++ publish_es)
        else
          match replan_error P (services new_layer ∪ plan w1) with
          | Some err =>
              mkRun
                (Raise (ErrorWithStatus
                          ("Failed to replan with error: " +:+ err) Blocked))
                (mkWorld (MaintenanceStatus "Applying new pebble layer")
                         (services new_layer ∪ plan w1) (s3 w1))
                (bucket_es ++ applying)
          | None =>
              mkRun publish_res
                (mkWorld (MaintenanceStatus "Applying new pebble layer")
                         (services new_layer ∪ plan w1) (s3 w1))
                (bucket_es ++ applying ++ publish_es)
          end.
Proof.
  intros new_layer applying B.
  destruct (_on_event_publish_run interfaces object_storage_data)
    as (pres & pes & Pu & Pes & Pres).
  exists pres, pes. split; [done|]. split; [done|].
  unfold _on_event_actions. rewrite (bind_Return _ _ _ _ _ _ B).
  pose proof (_update_layer_run
                (_get_env_vars relational_db_data object_storage_data)
                (config_default_artifact_root env) w1) as U.
  cbv zeta in U. fold new_layer in U.
  destruct (decide (plan w1 = services new_layer)) as [E|E].
  - rewrite (bind_Return _ _ _ _ _ _ U). rewrite Pu. by run_simpl.
  - fold applying in U.
    destruct (replan_error P (services new_layer ∪ plan w1)) as [err|].
    + rewrite (bind_Raise _ _ _ _ _ _ U). by run_simpl.
    + rewrite (bind_Return _ _ _ _ _ _ U). rewrite Pu. by run_simpl.
Qed.

End Steps.

(** ** The database relation *)

Section Database.

Variable P : Platform.
Variable env : Env.

(** The loop passes over the relations that have no data yet. *)
Lemma _get_relational_db_data_loop_skip (empty rest : list (gmap string string)) :
  Forall (λ val, val = ∅) empty →
  _get_relational_db_data_loop (empty ++ rest) = _get_relational_db_data_loop rest.
Proof.
  induction 1 as [|val empty E _ IH]; simpl; [reflexivity|].
  by destruct (decide (val = ∅)).
Qed.

(** The data of the first relation that has some decide the outcome. *)
Lemma _get_relational_db_data_first r empty i val rest :
  relational_db_relations env = [r] →
  fetch_relation_data env = empty ++ (i, val) :: rest →
  Forall (λ kv, kv.2 = ∅) empty →
  _get_relational_db_data env = _get_relational_db_data_loop (val :: map snd rest).
Proof.
  intros R D E. unfold _get_relational_db_data, get_relation.
  rewrite R, D. simpl. rewrite map_app. simpl.
  apply _get_relational_db_data_loop_skip. by apply Forall_map.
Qed.

(** Without leadership nothing else is looked at. *)
Lemma _on_event_inputs_not_leader :
  is_leader env = false →
  _on_event_inputs env = Raise (ErrorWithStatus "Waiting for leadership" Waiting).
Proof. intros L. unfold _on_event_inputs, _check_leader. by rewrite L. Qed.

(** The inputs up to the database. *)
Lemma _on_event_inputs_database interfaces object_storage_data :
  is_leader env = true →
  get_interfaces env = Interfaces interfaces →
  _get_object_storage_data interfaces = Return object_storage_data →
  _on_event_inputs env =
    relational_db_data ← _get_relational_db_data env;
    mret (interfaces, object_storage_data, relational_db_data).
Proof.
  intros L I O. unfold _on_event_inputs, _check_leader, _get_interfaces.
  rewrite L, I. simpl. by rewrite O.
Qed.

(** C7: without leadership the handler stops before any call on the
    object store, the container or a relation; all it does is to set the
    waiting status, whatever the relations, the configuration and the
    surroundings are. *)
Theorem not_leader_waiting (w : World P) :
  is_leader env = false →
  _on_event P env w =
    mkRun (Return tt)
      (mkWorld (WaitingStatus "Waiting for leadership") (plan w) (s3 w))
      [unit_set_status (WaitingStatus "Waiting for leadership")].
Proof.
  intros L. rewrite _on_event_run, _on_event_body_views.
  by rewrite (_on_event_inputs_not_leader L).
Qed.

(** C2, amended: with leadership and the object-storage data, and no
    database relation established, the handler sets the blocked status
    that asks for the relation, and does nothing else. *)
Theorem no_database_relation_blocked interfaces object_storage_data (w : World P) :
  is_leader env = true →
  get_interfaces env = Interfaces interfaces →
  _get_object_storage_data interfaces = Return object_storage_data →
  relational_db_relations env = [] →
  _on_event P env w =
    mkRun (Return tt)
      (mkWorld (BlockedStatus "Please add relation to the database") (plan w) (s3 w))
      [unit_set_status (BlockedStatus "Please add relation to the database")].
Proof.
  intros L I O R. rewrite _on_event_run, _on_event_body_views.
  rewrite (_on_event_inputs_database _ _ L I O).
  unfold _get_relational_db_data, get_relation. by rewrite R.
Qed.

(** A relation that is established and has no data yet gives the waiting
    status. *)
Lemma database_relation_without_data_waiting interfaces object_storage_data r
    (w : World P) :
  is_leader env = true →
  get_interfaces env = Interfaces interfaces →
  _get_object_storage_data interfaces = Return object_storage_data →
  relational_db_relations env = [r] →
  Forall (λ kv, kv.2 = ∅) (fetch_relation_data env) →
  _on_event P env w =
    mkRun (Return tt)
      (mkWorld (WaitingStatus "Waiting for relational-db relation data") (plan w) (s3 w))
      [unit_set_status (WaitingStatus "Waiting for relational-db relation data")].
Proof.
  intros L I O R E. rewrite _on_event_run, _on_event_body_views.
  rewrite (_on_event_inputs_database _ _ L I O).
  unfold _get_relational_db_data, get_relation. rewrite R. simpl.
  rewrite <- (app_nil_r (map snd (fetch_relation_data env))).
  rewrite _get_relational_db_data_loop_skip; [done|]. by apply Forall_map.
Qed.

(** C3, amended: for a database relation with endpoints of the form
    host:port, a user name and a password, the environment holds the
    tracking URI mysql+pymysql://<username>:<password>@<host>:<port>/mlflow:
    user name and password are those of the relation, host and port are
    the two parts of its endpoints, and the database is the fixed name of
    the charm. *)
Theorem tracking_uri_of_relation r empty i val rest endpoints user pass
    (object_storage_data : ObjectStorage) :
  relational_db_relations env = [r] →
  fetch_relation_data env = empty ++ (i, val) :: rest →
  Forall (λ kv, kv.2 = ∅) empty →
  val !! "endpoints" = Some endpoints →
  Py.count ":" endpoints = 1 →
  val !! "username" = Some user →
  val !! "password" = Some pass →
  ∃ relational_db_data,
    _get_relational_db_data env = Return relational_db_data
    ∧ host relational_db_data +:+ ":" +:+ port relational_db_data = endpoints
    ∧ _get_env_vars relational_db_data object_storage_data !! "MLFLOW_TRACKING_URI"
      = Some ("mysql+pymysql://" +:+ user +:+ ":" +:+ pass +:+ "@"
                +:+ host relational_db_data +:+ ":" +:+ port relational_db_data
                +:+ "/mlflow").
Proof.
  intros R D E Hend Hcount Huser Hpass.
  rewrite (_get_relational_db_data_first _ _ _ _ _ R D E). simpl.
  destruct (decide (val = ∅)) as [->|_]; [by rewrite lookup_empty in Hend|].
  unfold getitem. rewrite Hend. simpl.
  destruct (split_pair_exists ":" endpoints Hcount) as (h & p & S).
  rewrite S, Huser, Hpass. simpl.
  eexists. split; [reflexivity|]. simpl.
  destruct (split_pair _ _ _ _ S) as [_ ->]. split; [reflexivity|].
  unfold _get_env_vars. simpl. by simplify_map_eq.
Qed.

(** C10: when the first relation with data has endpoints that do not hold
    exactly one colon, the unpacking of the split raises [ValueError];
    this is no [ErrorWithStatus], so the handler does not catch it: the
    exception leaves the handler, which has set no status and has done
    nothing else. *)
Theorem endpoints_without_one_colon_escape interfaces object_storage_data
    r empty i val rest endpoints (w : World P) :
  is_leader env = true →
  get_interfaces env = Interfaces interfaces →
  _get_object_storage_data interfaces = Return object_storage_data →
  relational_db_relations env = [r] →
  fetch_relation_data env = empty ++ (i, val) :: rest →
  Forall (λ kv, kv.2 = ∅) empty →
  val !! "endpoints" = Some endpoints →
  Py.count ":" endpoints ≠ 1 →
  ∃ msg,
    _get_relational_db_data env = Raise (ValueError msg)
    ∧ is_error_with_status (ValueError msg) = false
    ∧ _on_event P env w = mkRun (Raise (ValueError msg)) w [].
Proof.
  intros L I O R D E Hend Hcount.
  assert (∃ msg, _get_relational_db_data env = Raise (ValueError msg))
    as [msg V].
  { rewrite (_get_relational_db_data_first _ _ _ _ _ R D E). simpl.
    destruct (decide (val = ∅)) as [->|_]; [by rewrite lookup_empty in Hend|].
    unfold getitem. rewrite Hend. simpl.
    pose proof (length_split ":" endpoints) as Len.
    destruct (Py.split ":" endpoints) as [|h [|p [|q more]]]; eauto.
    simpl in Len. lia. }
  exists msg. split; [done|]. split; [done|].
  rewrite _on_event_run, _on_event_body_views.
  rewrite (_on_event_inputs_database _ _ L I O). by rewrite V.
Qed.

End Database.

(** ** The calls of a pass *)

Lemma statuses_set_app (es es' : list Effect) :
  statuses_set (es ++ es') = statuses_set es ++ statuses_set es'.
Proof. unfold statuses_set. apply flat_map_app. Qed.

(** Calls on the object store are no calls on the unit, the container or a
    relation. *)
Lemma bucket_effects_only (es : list Effect) :
  Forall (λ e, is_bucket_check e || is_bucket_creation e = true) es →
  statuses_set es = []
  ∧ List.filter is_container_effect es = []
  ∧ List.filter is_send_data es = [].
Proof.
  induction 1 as [|e es E _ (IH1 & IH2 & IH3)]; [done|].
  destruct e; try discriminate; simpl; auto.
Qed.

(** Calls on a relation are no calls on the unit, the container or the
    object store. *)
Lemma send_effects_only (es : list Effect) :
  Forall (λ e, is_send_data e = true) es →
  statuses_set es = []
  ∧ List.filter is_container_effect es = []
  ∧ List.filter is_bucket_creation es = [].
Proof.
  induction 1 as [|e es E _ (IH1 & IH2 & IH3)]; [done|].
  destruct e; try discriminate; simpl; auto.
Qed.

(** ** The reconciliation pass *)

Section Reconcile.

Variable P : Platform.
Variable env : Env.

(** The outcomes of the body: the inputs raise; or the bucket check
    raises; or the layer is left alone, or applied with a replan that
    fails, or applied, and in the first and the last case the manifests
    are published. *)
Lemma _on_event_body_cases (w : World P) :
  (∃ e, _on_event_inputs env = Raise e
        ∧ _on_event_body P env w = mkRun (Raise e) w [])
  ∨ (∃ interfaces object_storage_data relational_db_data bucket_es,
       let new_layer :=
         _charmed_mlflow_layer env
           (_get_env_vars relational_db_data object_storage_data)
           (config_default_artifact_root env) in
       let applying :=
         [unit_set_status (MaintenanceStatus "Applying new pebble layer");
          container_add_layer _container_name new_layer true;
          container_replan] in
       _on_event_inputs env
       = Return (interfaces, object_storage_data, relational_db_data)
       ∧ Forall (λ e, is_bucket_check e || is_bucket_creation e = true) bucket_es
       ∧ ((∃ msg,
             _on_event_bucket P env (_on_event_s3_wrapper object_storage_data)
               (config_default_artifact_root env) w
             = mkRun (Raise (ErrorWithStatus msg Blocked)) w bucket_es
             ∧ _on_event_body P env w
               = mkRun (Raise (ErrorWithStatus msg Blocked)) w bucket_es)
          ∨ (∃ store publish_res publish_es,
               _on_event_bucket P env (_on_event_s3_wrapper object_storage_data)
                 (config_default_artifact_root env) w
               = mkRun (Return tt) (mkWorld (unit_status w) (plan w) store) bucket_es
               ∧ Forall (λ e, is_send_data e = true) publish_es
               ∧ (∀ msg st, publish_res ≠ Raise (ErrorWithStatus msg st))
               ∧ ((plan w = services new_layer
                   ∧ _on_event_body P env w
                     = mkRun publish_res (mkWorld (unit_status w) (plan w) store)
                         (bucket_es ++ publish_es))
                  ∨ (plan w ≠ services new_layer
                     ∧ ∃ err,
                         replan_error P (services new_layer ∪ plan w) = Some err
                         ∧ _on_event_body P env w
                           = mkRun
                               (Raise (ErrorWithStatus
                                  ("Failed to replan with error: " +:+ err) Blocked))
                               (mkWorld (MaintenanceStatus "Applying new pebble layer")
                                  (services new_layer ∪ plan w) store)
                               (bucket_es ++ applying))
                  ∨ (plan w ≠ services new_layer
                     ∧ replan_error P (services new_layer ∪ plan w) = None
                     ∧ _on_event_body P env w
                       = mkRun publish_res
                           (mkWorld (MaintenanceStatus "Applying new pebble layer")
                              (services new_layer ∪ plan w) store)
                           (bucket_es ++ applying ++ publish_es)))))).
Proof.
  rewrite _on_event_body_views.
  destruct (_on_event_inputs env) as [[[interfaces os] db]|e]; [right|left; eauto].
  destruct w as [st pl store].
  destruct (_on_event_bucket_run P env (_on_event_s3_wrapper os)
              (config_default_artifact_root env) store)
    as (bres & store' & bes & B & Bres & Bes).
  exists interfaces, os, db, bes. cbv zeta. split; [done|]. split; [done|].
  destruct Bres as [->|[[msg ->] ->]].
  - right.
    destruct (_on_event_actions_bucket_returns P env interfaces os db _ _ _ (B st pl))
      as (pres & pes & Pes & Pres & A).
    exists store', pres, pes. run_simpl. split; [apply B|].
    split; [done|]. split; [done|].
    rewrite A. run_simpl.
    destruct (decide (pl = _)) as [E|E]; [left; done|right].
    destruct (replan_error P _) as [err|] eqn:R; [left|right]; eauto.
  - left. exists msg. split; [apply B|].
    by apply _on_event_actions_bucket_raises, B.
Qed.

(** An [ErrorWithStatus] that the body raises carries a waiting or a
    blocked status. *)
Lemma _on_event_body_status (w : World P) msg st :
  result (_on_event_body P env w) = Raise (ErrorWithStatus msg st) →
  st = Waiting ∨ st = Blocked.
Proof.
  destruct (_on_event_body_cases w)
    as [(e & I & ->)
       |(i & os & db & bes & I & Bes
         & [(m & _ & ->)|(store & pres & pes & B & Pes & Pres
                    & [[E ->]|[(E & err & R & ->)|(E & R & ->)]])])];
    run_simpl.
  - intros [= ->]. by eapply _on_event_inputs_status.
  - intros [= _ <-]. by right.
  - intros ->. by destruct (Pres msg st).
  - intros [= _ <-]. by right.
  - intros ->. by destruct (Pres msg st).
Qed.

(** The only status that the body itself sets is the maintenance status
    of a layer update. *)
Lemma _on_event_body_statuses (w : World P) :
  Forall (λ k, k = Maintenance) (statuses_set (effects (_on_event_body P env w))).
Proof.
  destruct (_on_event_body_cases w)
    as [(e & I & ->)
       |(i & os & db & bes & I & Bes
         & [(m & _ & ->)|(store & pres & pes & B & Pes & Pres
                    & [[E ->]|[(E & err & R & ->)|(E & R & ->)]])])];
    run_simpl; [constructor|..];
    destruct (bucket_effects_only bes Bes) as (Sb & _ & _);
    try destruct (send_effects_only pes Pes) as (Sp & _ & _);
    rewrite ?statuses_set_app, ?Sb, ?Sp; simpl; rewrite ?Sp;
    repeat constructor.
Qed.

(** C6: when a step of the pass raises the error that carries a status,
    the status that the handler leaves is the one of the error, which is a
    waiting or a blocked status; every status that is set during such a
    pass is a waiting, a blocked or a maintenance status. *)
Theorem failure_status_kinds (w : World P) msg st :
  result (_on_event_body P env w) = Raise (ErrorWithStatus msg st) →
  (st = Waiting ∨ st = Blocked)
  ∧ unit_status (final (_on_event P env w)) = status_of_error msg st
  ∧ is_failure_status (status_type (unit_status (final (_on_event P env w)))) = true
  ∧ Forall (λ k, is_failure_status k = true)
      (statuses_set (effects (_on_event P env w))).
Proof.
  intros R. pose proof (_on_event_body_status w msg st R) as K.
  pose proof (_on_event_body_statuses w) as S.
  rewrite _on_event_run. cbv zeta. rewrite R. run_simpl.
  split; [done|]. split; [done|]. split.
  - by destruct K as [->| ->].
  - rewrite statuses_set_app. apply Forall_app. split.
    + eapply Forall_impl; [exact S|]. by intros k ->.
    + simpl. constructor; [|constructor]. by destruct K as [->| ->].
Qed.

(** The handler after a bucket check that raises. *)
Lemma _on_event_bucket_raises_pass interfaces object_storage_data
    relational_db_data (w w1 : World P) msg st bucket_es :
  _on_event_inputs env
  = Return (interfaces, object_storage_data, relational_db_data) →
  _on_event_bucket P env (_on_event_s3_wrapper object_storage_data)
    (config_default_artifact_root env) w
  = mkRun (Raise (ErrorWithStatus msg st)) w1 bucket_es →
  _on_event P env w =
    mkRun (Return tt) (mkWorld (status_of_error msg st) (plan w1) (s3 w1))
      (bucket_es ++ [unit_set_status (status_of_error msg st)]).
Proof.
  intros I B. rewrite _on_event_run, _on_event_body_views, I.
  by rewrite (_on_event_actions_bucket_raises P env _ _ _ _ _ _ _ B).
Qed.

(** The handler after a bucket check that completes: the object store is
    not called again. *)
Lemma _on_event_bucket_returns_pass interfaces object_storage_data
    relational_db_data (w w1 : World P) bucket_es :
  _on_event_inputs env
  = Return (interfaces, object_storage_data, relational_db_data) →
  _on_event_bucket P env (_on_event_s3_wrapper object_storage_data)
    (config_default_artifact_root env) w
  = mkRun (Return tt) w1 bucket_es →
  ∃ es,
    effects (_on_event P env w) = bucket_es ++ es
    ∧ List.filter is_bucket_creation es = []
    ∧ s3 (final (_on_event P env w)) = s3 w1.
Proof.
  intros I B. rewrite _on_event_run, _on_event_body_views, I.
  destruct (_on_event_actions_bucket_returns P env interfaces
              object_storage_data relational_db_data _ _ _ B)
    as (pres & pes & Pes & Pres & ->).
  destruct (send_effects_only pes Pes) as (_ & _ & Fp).
  cbv zeta.
  destruct (decide (plan w1 = _)) as [E|E];
    [|destruct (replan_error P _) as [err|]]; run_simpl;
    try (destruct pres as [[]|[]]; try (by edestruct Pres)); run_simpl;
    rewrite <- ?app_assoc; (eexists; split; [reflexivity|]);
    simpl; rewrite ?List.filter_app, ?Fp; done.
Qed.

(** C4: the order of the bucket check in a pass that has its inputs.  An
    invalid name gives a blocked status before any call on the object
    store.  A valid name is followed by the check of the access.  A bucket
    that cannot be accessed gives a blocked status when the configuration
    does not allow to create it, and is created when the configuration
    allows it; a creation that raises gives a blocked status and no
    exception. *)
Theorem bucket_check_order interfaces object_storage_data relational_db_data
    (w : World P) :
  _on_event_inputs env
  = Return (interfaces, object_storage_data, relational_db_data) →
  let bucket := config_default_artifact_root env in
  let s3_wrapper := _on_event_s3_wrapper object_storage_data in
  let pass := _on_event P env w in
  let blocked (msg : string) (calls : list Effect) :=
    mkRun (Return tt) (mkWorld (BlockedStatus msg) (plan w) (s3 w))
      (calls ++ [unit_set_status (BlockedStatus msg)]) in
  (validate_s3_bucket_name P bucket = false →
     pass = blocked
       ("Invalid value for config default_artifact_root '" +:+ bucket +:+ "'"
          +:+ " - value must be a valid S3 bucket name") [])
  ∧ (validate_s3_bucket_name P bucket = true →
       ∃ es, effects pass = s3_check_if_bucket_accessible bucket :: es)
  ∧ (validate_s3_bucket_name P bucket = true →
     check_if_bucket_accessible P s3_wrapper bucket (s3 w) = false →
     config_create_default_artifact_root_if_missing env = false →
       pass = blocked
         ("Error with default S3 artifact store - bucket not accessible or does not "
            +:+ "exist. Set create_default_artifact_root_if_missing=True to automatically "
            +:+ "create a missing default bucket")
         [s3_check_if_bucket_accessible bucket])
  ∧ (validate_s3_bucket_name P bucket = true →
     check_if_bucket_accessible P s3_wrapper bucket (s3 w) = false →
     config_create_default_artifact_root_if_missing env = true →
       (∃ es, effects pass =
                [s3_check_if_bucket_accessible bucket;
                 s3_check_if_bucket_accessible bucket;
                 s3_create_bucket bucket] ++ es)
       ∧ (∀ store, create_bucket P s3_wrapper bucket (s3 w) = inr store →
                   s3 (final pass) = store)
       ∧ (∀ e, create_bucket P s3_wrapper bucket (s3 w) = inl e →
               pass = blocked
                 ("Error with default S3 artifact store - bucket not accessible or "
                    +:+ "cannot be created.  Caught error: '" +:+ e)
                 [s3_check_if_bucket_accessible bucket;
                  s3_check_if_bucket_accessible bucket;
                  s3_create_bucket bucket]))
  ∧ (validate_s3_bucket_name P bucket = true →
     check_if_bucket_accessible P s3_wrapper bucket (s3 w) = true →
       List.filter is_bucket_creation (effects pass) = []).
Proof.
  intros I bucket s3_wrapper pass blocked. subst pass blocked.
  split; [|split; [|split; [|split]]].
  - intros V. by rewrite (_on_event_bucket_raises_pass _ _ _ _ _ _ _ _ I (_on_event_bucket_invalid P env s3_wrapper bucket w V)).
  - intros V.
    destruct (check_if_bucket_accessible P s3_wrapper bucket (s3 w)) eqn:C.
    { destruct (_on_event_bucket_returns_pass _ _ _ _ _ _ I (_on_event_bucket_accessible P env s3_wrapper bucket w V C))
        as (es & -> & _). simpl. eauto. }
    destruct (config_create_default_artifact_root_if_missing env) eqn:F.
    2:{ rewrite (_on_event_bucket_raises_pass _ _ _ _ _ _ _ _ I (_on_event_bucket_missing P env s3_wrapper bucket w V C F)).
        simpl. eauto. }
    destruct (create_bucket P s3_wrapper bucket (s3 w)) as [e|store] eqn:B.
    + rewrite (_on_event_bucket_raises_pass _ _ _ _ _ _ _ _ I (_on_event_bucket_not_created P env s3_wrapper bucket w e V C F B)).
      simpl. eauto.
    + destruct (_on_event_bucket_returns_pass _ _ _ _ _ _ I (_on_event_bucket_created P env s3_wrapper bucket w store V C F B))
        as (es & -> & _). simpl. eauto.
  - intros V C F.
    by rewrite (_on_event_bucket_raises_pass _ _ _ _ _ _ _ _ I (_on_event_bucket_missing P env s3_wrapper bucket w V C F)).
  - intros V C F. split; [|split].
    + destruct (create_bucket P s3_wrapper bucket (s3 w)) as [e|store] eqn:B.
      * rewrite (_on_event_bucket_raises_pass _ _ _ _ _ _ _ _ I (_on_event_bucket_not_created P env s3_wrapper bucket w e V C F B)).
        simpl. eauto.
      * destruct (_on_event_bucket_returns_pass _ _ _ _ _ _ I (_on_event_bucket_created P env s3_wrapper bucket w store V C F B))
          as (es & -> & _). eauto.
    + intros store B.
      by destruct (_on_event_bucket_returns_pass _ _ _ _ _ _ I (_on_event_bucket_created P env s3_wrapper bucket w store V C F B))
        as (es & _ & _ & ->).
    + intros e B.
      by rewrite (_on_event_bucket_raises_pass _ _ _ _ _ _ _ _ I (_on_event_bucket_not_created P env s3_wrapper bucket w e V C F B)).
  - intros V C.
    destruct (_on_event_bucket_returns_pass _ _ _ _ _ _ I (_on_event_bucket_accessible P env s3_wrapper bucket w V C))
      as (es & -> & Fes & _).
    simpl. exact Fes.
Qed.

(** C5: when a step of the pass raises the error that carries a status,
    the handler catches it and sets the status of the error, and this is
    the last thing that it does: no manifest is sent, and the container
    is left alone unless the failing step is the replan of the layer
    update.  What the pass has done before stays: the handler leaves the
    plan and the object store as they are when the error is raised, so a
    bucket that the pass created is still there. *)
Theorem caught_error_stops_pass (w : World P) msg st :
  result (_on_event_body P env w) = Raise (ErrorWithStatus msg st) →
  let body := _on_event_body P env w in
  let pass := _on_event P env w in
  result pass = Return tt
  ∧ unit_status (final pass) = status_of_error msg st
  ∧ effects pass = effects body ++ [unit_set_status (status_of_error msg st)]
  ∧ plan (final pass) = plan (final body)
  ∧ s3 (final pass) = s3 (final body)
  ∧ List.filter is_send_data (effects pass) = []
  ∧ (List.filter is_container_effect (effects pass) = []
       ∧ plan (final pass) = plan w
     ∨ ∃ err, msg = "Failed to replan with error: " +:+ err)
  ∧ (∀ interfaces object_storage_data relational_db_data store,
       _on_event_inputs env
       = Return (interfaces, object_storage_data, relational_db_data) →
       validate_s3_bucket_name P (config_default_artifact_root env) = true →
       check_if_bucket_accessible P (_on_event_s3_wrapper object_storage_data)
         (config_default_artifact_root env) (s3 w) = false →
       config_create_default_artifact_root_if_missing env = true →
       create_bucket P (_on_event_s3_wrapper object_storage_data)
         (config_default_artifact_root env) (s3 w) = inr store →
       s3 (final pass) = store).
Proof.
  intros R body pass. subst body pass.
  rewrite _on_event_run. cbv zeta. rewrite R. run_simpl.
  repeat (split; [done|]).
  destruct (_on_event_body_cases w)
    as [(e & I & Body)
       |(i & os & db & bes & I & Bes
         & [(m & B & Body)|(store & pres & pes & B & Pes & Pres
                    & [[E Body]|[(E & err & Re & Body)|(E & Re & Body)]])])];
    rewrite Body in R |- *; run_simpl; simpl in R;
    try (by destruct (Pres msg st));
    try destruct (bucket_effects_only bes Bes) as (_ & Cb & Sb).
  - repeat split; [by left|].
    intros i os db store I'. congruence.
  - rewrite !List.filter_app, Cb, Sb. simpl. repeat split; [by left|].
    intros i' os' db' store' I' V C F Cr.
    rewrite I in I'. injection I' as <- <- <-.
    rewrite (_on_event_bucket_created P env _ _ _ _ V C F Cr) in B.
    discriminate.
  - injection R as <- <-.
    rewrite !List.filter_app, Sb. simpl. repeat split; [right; eauto|].
    intros i' os' db' store' I' V C F Cr.
    rewrite I in I'. injection I' as <- <- <-.
    rewrite (_on_event_bucket_created P env _ _ _ _ V C F Cr) in B.
    by injection B.
Qed.

(** The command line of the layer. *)
Lemma _charmed_mlflow_layer_command envs bucket :
  ∃ service,
    services (_charmed_mlflow_layer env envs bucket) = {[ _container_name := service ]}
    ∧ environment service = envs
    ∧ command service =
        "mlflow server --host 0.0.0.0 --port " +:+ config_mlflow_port env
          +:+ " --backend-store-uri $(MLFLOW_TRACKING_URI) --default-artifact-root s3://"
          +:+ bucket +:+ "/ --expose-prometheus /metrics".
Proof.
  eexists. split; [reflexivity|]. split; [reflexivity|].
  cbn [command]. unfold _port, METRICS_PATH. by rewrite !append_assoc.
Qed.

(** The handler leaves the plan and the object store of its body. *)
Lemma _on_event_final (w : World P) :
  plan (final (_on_event P env w)) = plan (final (_on_event_body P env w))
  ∧ s3 (final (_on_event P env w)) = s3 (final (_on_event_body P env w)).
Proof.
  rewrite _on_event_run. cbv zeta.
  by destruct (result (_on_event_body P env w)) as [[]|[]].
Qed.

(** C9: after a pass that completes, which is one that returns and leaves
    the active status, the plan of the container holds the service of the
    charm, and its command line is the tracking server with its fixed
    flags, the flag --default-artifact-root followed by s3://<bucket>/ for
    the bucket of the configuration, and the metrics path. *)
Theorem command_line_of_completed_pass (w : World P) :
  result (_on_event P env w) = Return tt →
  unit_status (final (_on_event P env w)) = ActiveStatus →
  ∃ service,
    plan (final (_on_event P env w)) !! _container_name = Some service
    ∧ command service =
        "mlflow server --host 0.0.0.0 --port " +:+ config_mlflow_port env
          +:+ " --backend-store-uri $(MLFLOW_TRACKING_URI) --default-artifact-root s3://"
          +:+ config_default_artifact_root env +:+ "/ --expose-prometheus /metrics".
Proof.
  intros R A.
  assert (result (_on_event_body P env w) = Return tt) as Body.
  { revert R A. rewrite _on_event_run. cbv zeta.
    pose proof (_on_event_body_status w) as K.
    destruct (result (_on_event_body P env w)) as [[]|e]; [done|].
    destruct e; try discriminate. run_simpl. intros _ [= -> _].
    destruct (K msg Active eq_refl); discriminate. }
  destruct (_on_event_final w) as [-> _].
  destruct (_on_event_body_cases w)
    as [(e & I & Eq)
       |(i & os & db & bes & I & Bes
         & [(m & B & Eq)|(store & pres & pes & B & Pes & Pres
                    & [[E Eq]|[(E & err & Re & Eq)|(E & Re & Eq)]])])];
    rewrite Eq in Body |- *; run_simpl; try discriminate;
    destruct (_charmed_mlflow_layer_command (_get_env_vars db os)
                (config_default_artifact_root env)) as (service & S & _ & C);
    exists service; (split; [|exact C]).
  - rewrite E, S. apply lookup_singleton_eq.
  - rewrite S. apply lookup_union_Some_l, lookup_singleton_eq.
Qed.

(** *** Running the handler twice *)

(** Merging the layer into a plan that holds at most the service of the
    charm gives the services of the layer. *)
Lemma own_plan_union (pl : gmap string Service) service :
  own_plan pl = true →
  {[ _container_name := service ]} ∪ pl = {[ _container_name := service ]}.
Proof.
  unfold own_plan. rewrite bool_decide_eq_true. intros D.
  apply map_eq. intros name. destruct (decide (name = _container_name)) as [->|N].
  - by rewrite (lookup_union_Some_l _ _ _ service), lookup_singleton_eq
      by apply lookup_singleton_eq.
  - rewrite lookup_union_r by (by apply lookup_singleton_ne).
    rewrite lookup_singleton_ne by done.
    apply not_elem_of_dom. intros In. apply D in In.
    by apply elem_of_singleton in In.
Qed.

Lemma own_plan_singleton service :
  own_plan {[ _container_name := service ]} = true.
Proof.
  unfold own_plan. apply bool_decide_eq_true. by rewrite dom_singleton_L.
Qed.

(** A pass on a container that holds no other service settles the world. *)
Lemma _on_event_settles (w : World P) :
  own_plan (plan w) = true →
  settled P env (final (_on_event P env w))
  ∧ own_plan (plan (final (_on_event P env w))) = true.
Proof.
  intros Own. unfold settled. destruct (_on_event_final w) as [-> ->].
  destruct (_on_event_body_cases w)
    as [(e & I & Eq)
       |(i & os & db & bes & I & Bes
         & [(m & B & Eq)|(store & pres & pes & B & Pes & Pres
                    & [[E Eq]|[(E & err & Re & Eq)|(E & Re & Eq)]])])];
    rewrite Eq; run_simpl.
  - split; [|done]. intros i os db I'. congruence.
  - split; [|done]. intros i' os' db' I'.
    rewrite I in I'. injection I' as <- <- <-. right.
    destruct w as [st pl store]. run_simpl.
    destruct (_on_event_bucket_run P env (_on_event_s3_wrapper os)
                (config_default_artifact_root env) store)
      as (bres & store' & bes' & B' & _ & _).
    rewrite (B' st pl) in B. injection B as -> <- ->.
    by exists m, bes.
  - split; [|done]. intros i' os' db' I'.
    rewrite I in I'. injection I' as <- <- <-. by left.
  - destruct (_charmed_mlflow_layer_command (_get_env_vars db os)
                (config_default_artifact_root env)) as (service & S & _).
    rewrite S, (own_plan_union _ _ Own). split; [|apply own_plan_singleton].
    intros i' os' db' I'. rewrite I in I'. injection I' as <- <- <-. by left.
  - destruct (_charmed_mlflow_layer_command (_get_env_vars db os)
                (config_default_artifact_root env)) as (service & S & _).
    rewrite S, (own_plan_union _ _ Own). split; [|apply own_plan_singleton].
    intros i' os' db' I'. rewrite I in I'. injection I' as <- <- <-. by left.
Qed.

(** A pass on a settled world leaves the container alone. *)
Lemma _on_event_settled (w : World P) :
  settled P env w →
  List.filter is_container_effect (effects (_on_event P env w)) = []
  ∧ plan (final (_on_event P env w)) = plan w
  ∧ (Maintenance ∉ statuses_set (effects (_on_event P env w))).
Proof.
  intros Settled.
  assert (List.filter is_container_effect (effects (_on_event_body P env w)) = []
          ∧ plan (final (_on_event_body P env w)) = plan w
          ∧ statuses_set (effects (_on_event_body P env w)) = []) as (C & Pl & St).
  { destruct (_on_event_body_cases w)
      as [(e & I & Eq)
         |(i & os & db & bes & I & Bes
           & [(m & B & Eq)|(store & pres & pes & B & Pes & Pres
                      & [[E Eq]|[(E & err & Re & Eq)|(E & Re & Eq)]])])];
      rewrite Eq; run_simpl; [done|..];
      destruct (bucket_effects_only bes Bes) as (Sb & Cb & _);
      try destruct (send_effects_only pes Pes) as (Sp & Cp & _).
    - done.
    - by rewrite List.filter_app, statuses_set_app, Sb, Cb, Sp, Cp.
    - destruct (Settled i os db I) as [Eq'|(m & es & Raises)]; [done|].
      destruct w as [st pl store0]. cbn [s3] in Raises.
      rewrite (Raises st pl) in B. discriminate.
    - destruct (Settled i os db I) as [Eq'|(m & es & Raises)]; [done|].
      destruct w as [st pl store0]. cbn [s3] in Raises.
      rewrite (Raises st pl) in B. discriminate. }
  destruct (_on_event_final w) as [-> _].
  pose proof (_on_event_body_status w) as K.
  rewrite _on_event_run. cbv zeta.
  destruct (result (_on_event_body P env w)) as [[]|e]; run_simpl.
  - rewrite List.filter_app, statuses_set_app, C, St. simpl.
    repeat split; [done|]. by intros [=]%list_elem_of_singleton.
  - destruct e; run_simpl; rewrite ?List.filter_app, ?statuses_set_app, ?C, ?St;
      simpl; (repeat split; [done|]); try by intros ?%elem_of_nil.
    intros [=]%list_elem_of_singleton.
    destruct (K msg st eq_refl); congruence.
Qed.

(** Where the handler is idempotent: on a container whose plan holds no
    service but the one of the charm.  There a second pass on the same
    inputs makes no call on the container, leaves the plan as the first
    pass left it and does not set the maintenance status; the container
    still holds no other service.  [_update_layer], given a plan whose
    services are those of the new layer, adds no layer, does not replan and
    sets no status. *)
Theorem reconcile_twice (w : World P) :
  own_plan (plan w) = true →
  let first := _on_event P env w in
  let second := _on_event P env (final first) in
  List.filter is_container_effect (effects second) = []
  ∧ plan (final second) = plan (final first)
  ∧ (Maintenance ∉ statuses_set (effects second))
  ∧ own_plan (plan (final second)) = true
  ∧ (∀ envs bucket (w' : World P),
       plan w' = services (_charmed_mlflow_layer env envs bucket) →
       _update_layer P env envs bucket w' = mkRun (Return tt) w' []).
Proof.
  intros Own first second. subst first second.
  destruct (_on_event_settles w Own) as [Settled Own'].
  destruct (_on_event_settled _ Settled) as (C & Pl & St).
  repeat (split; [done|]). split; [by rewrite Pl|].
  intros envs bucket w' E. rewrite _update_layer_run. cbv zeta.
  by destruct (decide (plan w' = _)).
Qed.

End Reconcile.

(** ** The action get-minio-password *)

(** On a charm that binds what the handler reads, and when the calls on it
    return, the action ends with a failure or with a result. *)
Lemma get_minio_password_of_bound_charm self service admin_user admin_password
    ready changed event :
  grafana_service self = Some service →
  _get_admin_password self = Some (Return admin_password) →
  config self !! "admin_user" = Some admin_user →
  is_ready service = Return ready →
  password_has_been_changed service admin_user admin_password = Return changed →
  _on_get_minio_password self event =
    Return
      (if negb ready then
         fail event "Grafana is not reachable yet. Please try again in a few minutes"
       else if changed then
         set_results event
           {[ "admin-password" := "Admin password has been changed by an administrator" ]}
       else set_results event {[ "admin-password" := admin_password ]}).
Proof.
  intros G A C R Ch. unfold _on_get_minio_password, getitem.
  rewrite G, A, C. simpl. rewrite R. simpl.
  destruct ready; simpl; [|done].
  rewrite Ch. simpl. by destruct changed.
Qed.

(** C8, as the code has it: the class binds neither [grafana_service] nor
    [_get_admin_password], so the first statement of the handler raises
    [AttributeError]; the handler has no [try], the exception leaves it, and
    the event holds neither a failure nor a result. *)
Theorem get_minio_password_raises config event :
  _on_get_minio_password (MlflowCharm config) event
  = Raise (AttributeError "'MlflowCharm' object has no attribute 'grafana_service'").
Proof. reflexivity. Qed.

(** ** The properties on the concrete platform *)

Lemma not_leader_waiting_witness :
  effects (_on_event (Demo.platform false) Demo.env_not_leader (Demo.fresh false []))
  = [unit_set_status (WaitingStatus "Waiting for leadership")].
Proof.
  rewrite (not_leader_waiting (Demo.platform false) Demo.env_not_leader
             (Demo.fresh false [])); reflexivity.
Defined.

Lemma no_database_relation_blocked_witness :
  unit_status (final (_on_event (Demo.platform false) Demo.env_no_database
                        (Demo.fresh false [])))
  = BlockedStatus "Please add relation to the database".
Proof.
  rewrite (no_database_relation_blocked (Demo.platform false) Demo.env_no_database
             Demo.interfaces Demo.object_storage (Demo.fresh false []));
    reflexivity.
Defined.

(** C2, as stated, fails: leader, object storage at hand, no database
    relation, and the status is not a waiting one. *)
Lemma no_database_relation_not_waiting :
  is_leader Demo.env_no_database = true
  ∧ relational_db_relations Demo.env_no_database = []
  ∧ unit_status (final (_on_event (Demo.platform false) Demo.env_no_database
                          (Demo.fresh false [])))
    ≠ WaitingStatus "waiting for mysql relation data".
Proof. split; [reflexivity|]. split; [reflexivity|]. vm_compute. discriminate. Qed.

Lemma tracking_uri_of_relation_witness :
  ∃ relational_db_data,
    _get_relational_db_data (Demo.env "mlflow" true) = Return relational_db_data
    ∧ host relational_db_data +:+ ":" +:+ port relational_db_data = "mysql-k8s:3306"
    ∧ _get_env_vars relational_db_data Demo.object_storage !! "MLFLOW_TRACKING_URI"
      = Some ("mysql+pymysql://" +:+ "relation-7" +:+ ":" +:+ "lorem-ipsum" +:+ "@"
                +:+ host relational_db_data +:+ ":" +:+ port relational_db_data
                +:+ "/mlflow").
Proof.
  apply (tracking_uri_of_relation (Demo.env "mlflow" true) 7 [] 7 Demo.db_fields []
           "mysql-k8s:3306" "relation-7" "lorem-ipsum" Demo.object_storage);
    try reflexivity.
  constructor.
Defined.

(** C3, as stated, fails: the user of the URI is the one of the relation,
    not root, whatever the database is taken to be. *)
Lemma tracking_uri_user_not_root :
  ∃ relational_db_data,
    _get_relational_db_data (Demo.env "mlflow" true) = Return relational_db_data
    ∧ ∀ database,
        _get_env_vars relational_db_data Demo.object_storage !! "MLFLOW_TRACKING_URI"
        ≠ Some ("mysql+pymysql://root:" +:+ password relational_db_data +:+ "@"
                  +:+ host relational_db_data +:+ ":" +:+ port relational_db_data
                  +:+ "/" +:+ database).
Proof.
  eexists. split; [reflexivity|]. intros database. vm_compute. discriminate.
Qed.

Lemma endpoints_without_one_colon_escape_witness :
  ∃ msg,
    _get_relational_db_data Demo.env_bad_endpoints = Raise (ValueError msg)
    ∧ is_error_with_status (ValueError msg) = false
    ∧ _on_event (Demo.platform false) Demo.env_bad_endpoints (Demo.fresh false [])
      = mkRun (Raise (ValueError msg)) (Demo.fresh false []) [].
Proof.
  apply (endpoints_without_one_colon_escape (Demo.platform false)
           Demo.env_bad_endpoints Demo.interfaces Demo.object_storage
           7 [] 7 (<["endpoints" := "mysql-k8s"]> Demo.db_fields) [] "mysql-k8s");
    try reflexivity.
  - constructor.
  - vm_compute. discriminate.
Defined.

Lemma bucket_check_order_witness :
  s3 (final (_on_event (Demo.platform false) (Demo.env "mlflow" true)
               (Demo.fresh false [])))
  = ["mlflow"].
Proof.
  pose proof (bucket_check_order (Demo.platform false) (Demo.env "mlflow" true)
                Demo.interfaces Demo.object_storage
                (mkDbData "mysql-k8s" "3306" "relation-7" "lorem-ipsum")
                (Demo.fresh false []) eq_refl) as (_ & _ & _ & Create & _).
  destruct (Create eq_refl eq_refl eq_refl) as (_ & Store & _).
  exact (Store ["mlflow"] eq_refl).
Defined.

Lemma caught_error_stops_pass_witness :
  unit_status (final (_on_event (Demo.platform true) (Demo.env "mlflow" true)
                        (Demo.fresh true [])))
  = BlockedStatus "Failed to replan with error: cannot start service"
  ∧ s3 (final (_on_event (Demo.platform true) (Demo.env "mlflow" true)
                 (Demo.fresh true [])))
    = ["mlflow"].
Proof.
  assert (result (_on_event_body (Demo.platform true) (Demo.env "mlflow" true)
                    (Demo.fresh true []))
          = Raise (ErrorWithStatus "Failed to replan with error: cannot start service"
                     Blocked)) as R by (vm_compute; reflexivity).
  pose proof (caught_error_stops_pass (Demo.platform true) (Demo.env "mlflow" true)
                (Demo.fresh true []) _ _ R) as (_ & St & _ & _ & _ & _ & _ & Store).
  split; [exact St|].
  exact (Store Demo.interfaces Demo.object_storage
           (mkDbData "mysql-k8s" "3306" "relation-7" "lorem-ipsum") ["mlflow"]
           eq_refl eq_refl eq_refl eq_refl eq_refl).
Defined.

Lemma failure_status_kinds_witness :
  Forall (λ k, is_failure_status k = true)
    (statuses_set (effects (_on_event (Demo.platform true) (Demo.env "mlflow" true)
                              (Demo.fresh true [])))).
Proof.
  assert (result (_on_event_body (Demo.platform true) (Demo.env "mlflow" true)
                    (Demo.fresh true []))
          = Raise (ErrorWithStatus "Failed to replan with error: cannot start service"
                     Blocked)) as R by (vm_compute; reflexivity).
  exact (proj2 (proj2 (proj2
           (failure_status_kinds (Demo.platform true) (Demo.env "mlflow" true)
              (Demo.fresh true []) _ _ R)))).
Defined.

Lemma command_line_of_completed_pass_witness :
  ∃ service,
    plan (final (_on_event (Demo.platform false) (Demo.env "mlflow" true)
                   (Demo.fresh false [])))
    !! _container_name = Some service
    ∧ command service =
        "mlflow server --host 0.0.0.0 --port " +:+ "5000"
          +:+ " --backend-store-uri $(MLFLOW_TRACKING_URI) --default-artifact-root s3://"
          +:+ "mlflow" +:+ "/ --expose-prometheus /metrics".
Proof.
  apply (command_line_of_completed_pass (Demo.platform false) (Demo.env "mlflow" true)
           (Demo.fresh false [])); vm_compute; reflexivity.
Defined.

Lemma reconcile_twice_witness :
  List.filter is_container_effect
    (effects (_on_event (Demo.platform false) (Demo.env "mlflow" true)
                (final (_on_event (Demo.platform false) (Demo.env "mlflow" true)
                          (Demo.fresh false [])))))
  = [].
Proof.
  assert (own_plan (plan (Demo.fresh false [])) = true) as Own
    by (vm_compute; reflexivity).
  exact (proj1 (reconcile_twice (Demo.platform false) (Demo.env "mlflow" true)
                  (Demo.fresh false []) Own)).
Defined.

(** C1: the code breaks the idempotence that the claim states and that the
    docstring of [_update_layer] promises (the layer is updated if changed).
    [_update_layer] compares all the services of the plan with the one
    service of the new layer; on a container that holds a service of another
    layer the two are never equal, so the second pass on the same inputs
    sets the maintenance status, adds the layer and replans again, although
    the plan is the one that the first pass left. *)
Lemma second_pass_applies_layer_again :
  let first :=
    _on_event (Demo.platform false) (Demo.env "mlflow" true) Demo.with_other_service in
  let second :=
    _on_event (Demo.platform false) (Demo.env "mlflow" true) (final first) in
  List.filter is_container_effect (effects second)
  = [container_add_layer _container_name
       (_charmed_mlflow_layer (Demo.env "mlflow" true)
          (_get_env_vars (mkDbData "mysql-k8s" "3306" "relation-7" "lorem-ipsum")
             Demo.object_storage)
          "mlflow") true;
     container_replan]
  ∧ statuses_set (effects second) = [Maintenance; Active]
  ∧ List.filter is_container_effect (effects second) ≠ []
  ∧ plan (final second) = plan (final first).
Proof. vm_compute. repeat split. discriminate. Qed.

(** The handler of the pebble-ready event raises its own [ErrorWithStatus]
    outside the [try] of [_on_event]: when the container cannot be reached
    the error leaves the handler and no status is set. *)
Lemma _on_pebble_ready_cannot_connect (P : Platform) (env : Env) (w : World P) :
  can_connect env = false →
  _on_pebble_ready P env w
  = mkRun (Raise (ErrorWithStatus "Pebble is ready and container is not ready" Blocked))
      w [].
Proof. intros C. unfold _on_pebble_ready. by rewrite C. Qed.

(** * Further properties of the handlers *)

(** ** The methods that read the relations *)

Section Relations.

Variable P : Platform.
Variable env : Env.

(** What [_get_object_storage_data] answers, by the entry of the relation
    in the interfaces and the answers of its two calls of [get_data()].
    The interfaces that do not know the relation give a plain [KeyError];
    a relation that is not established, or whose first call returns no
    data, gives the waiting error; an exception of the first call, which is
    made outside the [try], escapes as it is; an exception of the second
    call, and a second answer without data, are caught and become the
    blocked error, which carries the text of what was caught; otherwise the
    answer is the first of the data of the second call.  So the method
    returns exactly when the first call returns some data and the second
    call returns the data of which the result is the first, and the errors
    that are not status errors are the [KeyError] and the exception of the
    first call. *)
Theorem _get_object_storage_data_outcomes
    (interfaces : gmap string (option Interface)) :
  (interfaces !! "object-storage" = None →
   _get_object_storage_data interfaces = Raise (KeyError "object-storage"))
  ∧ (interfaces !! "object-storage" = Some None →
     _get_object_storage_data interfaces
     = Raise (ErrorWithStatus "Waiting for object-storage relation data" Waiting))
  ∧ (∀ interface,
       interfaces !! "object-storage" = Some (Some interface) →
       (∀ e, get_data interface 0 = inl e →
             _get_object_storage_data interfaces = Raise (OtherException e))
       ∧ (get_data interface 0 = inr [] →
          _get_object_storage_data interfaces
          = Raise (ErrorWithStatus "Waiting for object-storage relation data" Waiting))
       ∧ (∀ first rest,
            get_data interface 0 = inr (first :: rest) →
            (∀ e, get_data interface 1 = inl e →
                  _get_object_storage_data interfaces
                  = Raise (ErrorWithStatus
                      ("Unexpected error unpacking object storage data - data format not "
                         +:+ "as expected. Caught exception: '" +:+ e +:+ "'")
                      Blocked))
            ∧ (get_data interface 1 = inr [] →
               _get_object_storage_data interfaces
               = Raise (ErrorWithStatus
                   ("Unexpected error unpacking object storage data - data format not "
                      +:+ "as expected. Caught exception: '"
                      +:+ "list index out of range" +:+ "'")
                   Blocked))
            ∧ (∀ data rest',
                 get_data interface 1 = inr (data :: rest') →
                 _get_object_storage_data interfaces = Return data)))
  ∧ (∀ data,
       _get_object_storage_data interfaces = Return data
       ↔ ∃ interface first rest rest',
           interfaces !! "object-storage" = Some (Some interface)
           ∧ get_data interface 0 = inr (first :: rest)
           ∧ get_data interface 1 = inr (data :: rest'))
  ∧ (∀ e,
       _get_object_storage_data interfaces = Raise e →
       is_error_with_status e = false →
       (interfaces !! "object-storage" = None ∧ e = KeyError "object-storage")
       ∨ ∃ interface msg,
           interfaces !! "object-storage" = Some (Some interface)
           ∧ get_data interface 0 = inl msg
           ∧ e = OtherException msg).
Proof.
  unfold _get_object_storage_data, call_get_data.
  destruct (interfaces !! "object-storage") as [[interface|]|] eqn:L;
    (split; [|split; [|split; [|split]]]); try discriminate.
  - intros i [= <-].
    destruct (get_data interface 0) as [msg|[|first rest]]; simpl;
      (split; [|split]); try discriminate.
    + by intros e [= <-].
    + done.
    + intros f r _.
      destruct (get_data interface 1) as [msg|[|again rest']]; simpl;
        (split; [|split]); try discriminate.
      * by intros e [= <-].
      * done.
      * by intros d r' [= <- _].
  - intros data. split.
    + destruct (get_data interface 0) as [msg|[|first rest]] eqn:G0; simpl;
        try discriminate.
      destruct (get_data interface 1) as [msg|[|again rest']] eqn:G1; simpl;
        try discriminate.
      intros [= <-]. by exists interface, first, rest, rest'.
    + intros (i & f & r & r' & [= <-] & G0 & G1). by rewrite G0, G1.
  - intros e.
    destruct (get_data interface 0) as [msg|[|first rest]] eqn:G0; simpl.
    + intros [= <-] _. right. by exists interface, msg.
    + by intros [= <-].
    + destruct (get_data interface 1) as [msg|[|again rest']]; simpl;
        try discriminate; by intros [= <-].
  - done.
  - intros data. split; [discriminate|]. by intros (? & ? & ? & ? & ? & _).
  - by intros e [= <-].
  - done.
  - intros data. split; [discriminate|]. by intros (? & ? & ? & ? & ? & _).
  - intros e [= <-] _. by left.
Qed.


(** A field that the data of the database lack is a plain [KeyError]: the
    endpoints are read first, then, when they hold one colon, the user name
    and the password.  The handler does not catch it: the exception leaves
    [_on_event], which has set no status and has called nothing. *)
Theorem missing_database_field_escapes interfaces object_storage_data
    r empty i val rest key (w : World P) :
  is_leader env = true →
  get_interfaces env = Interfaces interfaces →
  _get_object_storage_data interfaces = Return object_storage_data →
  relational_db_relations env = [r] →
  fetch_relation_data env = empty ++ (i, val) :: rest →
  Forall (λ kv, kv.2 = ∅) empty →
  val ≠ ∅ →
  (key = "endpoints" ∧ val !! "endpoints" = None)
  ∨ (∃ endpoints,
       val !! "endpoints" = Some endpoints ∧ Py.count ":" endpoints = 1
       ∧ (key = "username" ∧ val !! "username" = None
          ∨ key = "password" ∧ is_Some (val !! "username")
            ∧ val !! "password" = None)) →
  _get_relational_db_data env = Raise (KeyError key)
  ∧ _on_event P env w = mkRun (Raise (KeyError key)) w [].
Proof.
  intros L I O R D E N Missing.
  assert (_get_relational_db_data env = Raise (KeyError key)) as K.
  { rewrite (_get_relational_db_data_first env r empty i val rest R D E). simpl.
    destruct (decide (val = ∅)); [done|]. unfold getitem.
    destruct Missing as [[-> ->]|(endpoints & -> & C & Field)]; [done|]. simpl.
    destruct (split_pair_exists ":" endpoints C) as (h & p & ->).
    destruct Field as [[-> ->]|(-> & [user ->] & ->)]; done. }
  split; [done|].
  rewrite _on_event_run, _on_event_body_views.
  rewrite (_on_event_inputs_database env _ _ L I O). by rewrite K.
Qed.

(** [_create_manifests] renders the files in order: it returns the JSON of
    the documents exactly when every file renders, and otherwise raises what
    the first file that does not render raises. *)
Theorem _create_manifests_outcomes (files : list string)
    (context : gmap string string) :
  (∀ text,
     _create_manifests P files context = Return text
     ↔ ∃ manifests,
         Forall2 (λ file manifest, load_manifest P file context = inr manifest)
           files manifests
         ∧ text = json_dumps P manifests)
  ∧ (∀ e,
       _create_manifests P files context = Raise e
       ↔ ∃ rendered file rest manifests msg,
           files = rendered ++ file :: rest
           ∧ Forall2 (λ file manifest, load_manifest P file context = inr manifest)
               rendered manifests
           ∧ load_manifest P file context = inl msg
           ∧ e = OtherException msg).
Proof.
  assert (Loop : ∀ files,
    (∀ manifests,
       _create_manifests_loop P files context = Return manifests
       ↔ Forall2 (λ file manifest, load_manifest P file context = inr manifest)
           files manifests)
    ∧ (∀ e,
         _create_manifests_loop P files context = Raise e
         ↔ ∃ rendered file rest manifests msg,
             files = rendered ++ file :: rest
             ∧ Forall2 (λ file manifest, load_manifest P file context = inr manifest)
                 rendered manifests
             ∧ load_manifest P file context = inl msg
             ∧ e = OtherException msg)).
  { clear files. induction files as [|file files [IHr IHe]]; simpl.
    - split.
      + intros manifests. split.
        * intros [= <-]. constructor.
        * intros F. by inversion F.
      + intros e. split; [discriminate|].
        intros (rendered & f & rest & ms & msg & Eq & _). by destruct rendered.
    - destruct (load_manifest P file context) as [msg|manifest] eqn:Load.
      + split.
        * intros manifests. split; [discriminate|].
          intros F. inversion F; subst. congruence.
        * intros e. split.
          -- intros [= <-]. exists [], file, files, [], msg.
             repeat split; [constructor|done].
          -- intros (rendered & f & rest & ms & msg' & Eq & F & Load' & ->).
             destruct rendered as [|f0 rendered]; simpl in Eq.
             ++ injection Eq as <- <-. congruence.
             ++ injection Eq as <- ->. inversion F; subst. congruence.
      + destruct (_create_manifests_loop P files context) as [ms|e0] eqn:Rec; simpl;
          cbv [mret Res_ret].
        * split.
          -- intros manifests. split.
             ++ intros [= <-]. constructor; [done|]. by apply IHr.
             ++ intros F. inversion F as [|? m ? ms' Hm Hms]; subst.
                apply IHr in Hms. congruence.
          -- intros e. split; [discriminate|].
             intros (rendered & f & rest & ms' & msg & Eq & F & Load' & ->).
             destruct rendered as [|f0 rendered]; simpl in Eq.
             ++ injection Eq as <- <-. congruence.
             ++ injection Eq as <- ->. inversion F; subst.
                assert (Return ms = Raise (OtherException msg)) as Bad; [|done].
                apply IHe. by eexists rendered, f, rest, _, msg.
        * split.
          -- intros manifests. split; [discriminate|].
             intros F. inversion F as [|? m ? ms' Hm Hms]; subst.
             apply IHr in Hms. congruence.
          -- intros e. split.
             ++ intros [= <-].
                destruct (proj1 (IHe e0) eq_refl)
                  as (rendered & f & rest & ms & msg & -> & F & Load' & ->).
                exists (file :: rendered), f, rest, (manifest :: ms), msg.
                repeat split; [by constructor|done].
             ++ intros (rendered & f & rest & ms' & msg & Eq & F & Load' & ->).
                destruct rendered as [|f0 rendered]; simpl in Eq.
                ** injection Eq as <- <-. congruence.
                ** injection Eq as <- ->. inversion F; subst.
                   apply IHe. by eexists rendered, f, rest, _, msg. }
  destruct (Loop files) as [Lr Le]. unfold _create_manifests.
  destruct (_create_manifests_loop P files context) as [ms|e0] eqn:Rec; simpl;
    cbv [mret Res_ret].
  - split.
    + intros text. split.
      * intros [= <-]. exists ms. split; [by apply Lr|done].
      * intros (ms' & F & ->). apply Lr in F. congruence.
    + intros e. split; [discriminate|]. intros H. apply Le in H. discriminate.
  - split.
    + intros text. split; [discriminate|].
      intros (ms' & F & _). apply Lr in F. discriminate.
    + intros e. split.
      * intros [= <-]. by apply Le.
      * intros H. apply Le in H. congruence.
Qed.

End Relations.

(** ** What a pass does and what it never does *)

Lemma filter_all {A} (f : A → bool) (l : list A) :
  Forall (λ x, f x = true) l → List.filter f l = l.
Proof. induction 1 as [|x l E _ IH]; simpl; [done|]. by rewrite E, IH. Qed.

Lemma filter_none {A} (f : A → bool) (l : list A) :
  Forall (λ x, f x = false) l → List.filter f l = [].
Proof. induction 1 as [|x l E _ IH]; simpl; [done|]. by rewrite E. Qed.

Section Outcomes.

Variable P : Platform.
Variable env : Env.

(** The calls of the bucket check: none for an invalid name, one check
    before the blocked status of a bucket that may not be created, two
    checks for a bucket that is there, two checks and the creation for a
    bucket that is missing and may be created.  Only a creation can change
    the object store. *)
Lemma _on_event_bucket_calls s3_wrapper bucket (w : World P) :
  let r := _on_event_bucket P env s3_wrapper bucket w in
  let check := s3_check_if_bucket_accessible bucket in
  (effects r = [] ∧ final r = w)
  ∨ (effects r = [check] ∧ final r = w)
  ∨ (effects r = [check; check] ∧ final r = w)
  ∨ (effects r = [check; check; s3_create_bucket bucket]
     ∧ config_create_default_artifact_root_if_missing env = true).
Proof.
  cbv zeta.
  destruct (validate_s3_bucket_name P bucket) eqn:V.
  2:{ left. by rewrite (_on_event_bucket_invalid P env _ _ w V). }
  destruct (check_if_bucket_accessible P s3_wrapper bucket (s3 w)) eqn:C.
  { right. right. left. by rewrite (_on_event_bucket_accessible P env _ _ w V C). }
  destruct (config_create_default_artifact_root_if_missing env) eqn:F.
  2:{ right. left. by rewrite (_on_event_bucket_missing P env _ _ w V C F). }
  right. right. right.
  destruct (create_bucket P s3_wrapper bucket (s3 w)) as [e|store] eqn:B.
  - by rewrite (_on_event_bucket_not_created P env _ _ w e V C F B).
  - by rewrite (_on_event_bucket_created P env _ _ w store V C F B).
Qed.

(** The calls of the handler are those of its body, followed by the call
    that sets the final status unless an exception leaves the handler. *)
Lemma _on_event_effects (w : World P) :
  ∃ tail,
    effects (_on_event P env w) = effects (_on_event_body P env w) ++ tail
    ∧ (tail = [] ∨ ∃ st, tail = [unit_set_status st]).
Proof.
  rewrite _on_event_run. cbv zeta.
  destruct (result (_on_event_body P env w)) as [[]|[]]; run_simpl;
    try (exists []; rewrite app_nil_r; by auto); eexists; eauto.
Qed.

(** The calls of a pass on the object store are those of its bucket check,
    which the pass reaches when it has its inputs. *)
Lemma _on_event_bucket_part (w : World P) :
  (∃ e, _on_event_inputs env = Raise e
        ∧ List.filter (λ e, is_bucket_check e || is_bucket_creation e)
            (effects (_on_event P env w)) = []
        ∧ s3 (final (_on_event P env w)) = s3 w)
  ∨ (∃ interfaces object_storage_data relational_db_data,
       _on_event_inputs env
       = Return (interfaces, object_storage_data, relational_db_data)
       ∧ let r :=
           _on_event_bucket P env (_on_event_s3_wrapper object_storage_data)
             (config_default_artifact_root env) w in
         List.filter (λ e, is_bucket_check e || is_bucket_creation e)
           (effects (_on_event P env w)) = effects r
         ∧ s3 (final (_on_event P env w)) = s3 (final r)).
Proof.
  destruct (_on_event_effects w) as (tail & -> & Tail).
  destruct (_on_event_final P env w) as [_ ->].
  assert (List.filter (λ e, is_bucket_check e || is_bucket_creation e) tail = [])
    as Ft by (by destruct Tail as [->|[st ->]]).
  rewrite List.filter_app, Ft, app_nil_r.
  destruct (_on_event_body_cases P env w)
    as [(e & I & Eq)
       |(i & os & db & bes & I & Bes
         & [(m & B & Eq)|(store & pres & pes & B & Pes & Pres
                    & [[E Eq]|[(E & err & Re & Eq)|(E & Re & Eq)]])])];
    rewrite Eq; run_simpl; [left; eauto|right; exists i, os, db; split; [done|]..];
    cbv zeta; rewrite B; run_simpl;
    rewrite ?List.filter_app; simpl;
    rewrite ?(filter_all _ bes Bes), ?app_nil_r; try done;
    rewrite (filter_none _ pes); rewrite ?app_nil_r; try done;
    (eapply Forall_impl; [exact Pes|]); by intros [].
Qed.

(** In a pass the object store is asked about the bucket of the
    configuration only, at most twice, and a creation comes after two
    checks and at most once. *)
Theorem bucket_calls_of_pass (w : World P) :
  let check := s3_check_if_bucket_accessible (config_default_artifact_root env) in
  let create := s3_create_bucket (config_default_artifact_root env) in
  let calls :=
    List.filter (λ e, is_bucket_check e || is_bucket_creation e)
      (effects (_on_event P env w)) in
  calls = [] ∨ calls = [check] ∨ calls = [check; check]
  ∨ calls = [check; check; create].
Proof.
  cbv zeta.
  destruct (_on_event_bucket_part w)
    as [(e & _ & -> & _)|(i & os & db & _ & -> & _)]; [by left|].
  destruct (_on_event_bucket_calls (_on_event_s3_wrapper os)
              (config_default_artifact_root env) w)
    as [[-> _]|[[-> _]|[[-> _]|[-> _]]]]; auto.
Qed.

(** With create_default_artifact_root_if_missing off, a pass never calls
    [create_bucket] and leaves the object store as it is, whatever the other
    inputs and the object store are. *)
Theorem no_bucket_creation_without_flag (w : World P) :
  config_create_default_artifact_root_if_missing env = false →
  List.filter is_bucket_creation (effects (_on_event P env w)) = []
  ∧ s3 (final (_on_event P env w)) = s3 w.
Proof.
  intros F.
  assert (∀ es, List.filter is_bucket_creation
                  (List.filter (λ e, is_bucket_check e || is_bucket_creation e) es)
                = List.filter is_bucket_creation es) as Twice.
  { induction es as [|[] es IH]; simpl; rewrite ?IH; done. }
  rewrite <- Twice.
  destruct (_on_event_bucket_part w)
    as [(e & _ & -> & ->)|(i & os & db & _ & -> & ->)]; [done|].
  destruct (_on_event_bucket_calls (_on_event_s3_wrapper os)
              (config_default_artifact_root env) w)
    as [[-> ->]|[[-> ->]|[[-> ->]|[_ F']]]]; try done.
  congruence.
Qed.

(** The handler catches every [ErrorWithStatus] of its body. *)
Lemma _on_event_no_status_error (w : World P) msg st :
  result (_on_event P env w) ≠ Raise (ErrorWithStatus msg st).
Proof.
  rewrite _on_event_run. cbv zeta.
  by destruct (result (_on_event_body P env w)) as [[]|[]].
Qed.

(** The status that the body leaves is the one it found or the maintenance
    status of a layer update. *)
Lemma _on_event_body_unit_status (w : World P) :
  unit_status (final (_on_event_body P env w)) = unit_status w
  ∨ unit_status (final (_on_event_body P env w))
    = MaintenanceStatus "Applying new pebble layer".
Proof.
  destruct (_on_event_body_cases P env w)
    as [(e & I & ->)
       |(i & os & db & bes & I & Bes
         & [(m & B & ->)|(store & pres & pes & B & Pes & Pres
                    & [[E ->]|[(E & err & Re & ->)|(E & Re & ->)]])])];
    run_simpl; auto.
Qed.

(** An exception that leaves the handler is the one of its body and is no
    [ErrorWithStatus].  The handler has then set no final status: the unit
    keeps the status it had, or the maintenance status when the layer was
    applied before the exception. *)
Theorem escaping_exception_leaves_status (w : World P) e :
  result (_on_event P env w) = Raise e →
  is_error_with_status e = false
  ∧ result (_on_event_body P env w) = Raise e
  ∧ Forall (λ k, k = Maintenance) (statuses_set (effects (_on_event P env w)))
  ∧ (unit_status (final (_on_event P env w)) = unit_status w
     ∨ unit_status (final (_on_event P env w))
       = MaintenanceStatus "Applying new pebble layer").
Proof.
  pose proof (_on_event_body_statuses P env w) as S.
  pose proof (_on_event_body_unit_status w) as U.
  revert S U. rewrite _on_event_run. cbv zeta.
  destruct (_on_event_body P env w) as [[[]|e0] w' es]; run_simpl;
    [discriminate|].
  intros S U. destruct e0; run_simpl; intros [= <-]; try discriminate; done.
Qed.

(** When the handler returns, its last call has set the status that the
    unit has, and this status is active, waiting or blocked: the maintenance
    status of a layer update does not outlast the pass. *)
Theorem returned_pass_status (w : World P) :
  result (_on_event P env w) = Return tt →
  (∃ es, effects (_on_event P env w)
         = es ++ [unit_set_status (unit_status (final (_on_event P env w)))])
  ∧ (status_type (unit_status (final (_on_event P env w))) = Active
     ∨ status_type (unit_status (final (_on_event P env w))) = Waiting
     ∨ status_type (unit_status (final (_on_event P env w))) = Blocked).
Proof.
  pose proof (_on_event_body_status P env w) as K.
  rewrite _on_event_run. cbv zeta.
  destruct (result (_on_event_body P env w)) as [[]|e]; run_simpl.
  - intros _. split; [eauto|by left].
  - destruct e; run_simpl; try discriminate.
    intros _. split; [eauto|]. right.
    destruct (K msg st eq_refl) as [->| ->]; auto.
Qed.

End Outcomes.

(** ** The manifests, the plan and the status of a pass *)

Ltac run_simpl_in H :=
  cbn [negb andb result final effects plan s3 unit_status app] in H.

Section Publishing.

Variable P : Platform.
Variable env : Env.

(** The endpoint of the pod-defaults context is read from the secrets
    context, where it is the endpoint of the object storage. *)
Lemma _on_event_secrets_context_endpoint object_storage_data :
  _on_event_secrets_context env object_storage_data !!! "s3_endpoint"
  = s3_endpoint object_storage_data.
Proof.
  unfold _on_event_secrets_context.
  rewrite lookup_total_insert_ne by done. by rewrite lookup_total_insert_eq.
Qed.

(** What [_send_manifests] sends: the rendering of the files, on a relation
    that is established, when the files render. *)
Lemma _send_manifests_effects interfaces context files relation (w : World P) :
  effects (_send_manifests P interfaces context files relation w)
  = match interfaces !! relation, _create_manifests P files context with
    | Some (Some _), Return manifests => [relation_send_data relation manifests]
    | _, _ => []
    end.
Proof.
  unfold _send_manifests.
  destruct (interfaces !! relation) as [[interface|]|]; try done.
  unfold bind, lift, send_data. run_simpl.
  by destruct (_create_manifests P files context).
Qed.

(** What the publishing sends. *)
Lemma _on_event_publish_sends interfaces object_storage_data relation manifests
    (w : World P) :
  relation_send_data relation manifests
  ∈ effects (_on_event_publish P env interfaces object_storage_data w) →
  (∃ interface, interfaces !! relation = Some (Some interface))
  ∧ (relation = "secrets"
       ∧ _create_manifests P SECRETS_FILES
           (_on_event_secrets_context env object_storage_data) = Return manifests
     ∨ relation = "pod-defaults"
       ∧ _create_manifests P PODDEFAULTS_FILES
           (_on_event_poddefaults_context env (s3_endpoint object_storage_data))
         = Return manifests).
Proof.
  unfold _on_event_publish. rewrite _on_event_secrets_context_endpoint.
  set (first := _send_manifests P interfaces
                  (_on_event_secrets_context env object_storage_data)
                  SECRETS_FILES "secrets").
  set (second := _send_manifests P interfaces
                   (_on_event_poddefaults_context env (s3_endpoint object_storage_data))
                   PODDEFAULTS_FILES "pod-defaults").
  assert (∀ w', relation_send_data relation manifests ∈ effects (first w') →
                (∃ interface, interfaces !! relation = Some (Some interface))
                ∧ relation = "secrets"
                ∧ _create_manifests P SECRETS_FILES
                    (_on_event_secrets_context env object_storage_data)
                  = Return manifests) as First.
  { intros w'. subst first. rewrite _send_manifests_effects.
    destruct (interfaces !! "secrets") as [[interface|]|] eqn:L;
      try (by intros ?%elem_of_nil).
    destruct (_create_manifests P SECRETS_FILES _) as [m|e];
      [|by intros ?%elem_of_nil].
    intros [= -> ->]%list_elem_of_singleton. eauto. }
  assert (∀ w', relation_send_data relation manifests ∈ effects (second w') →
                (∃ interface, interfaces !! relation = Some (Some interface))
                ∧ relation = "pod-defaults"
                ∧ _create_manifests P PODDEFAULTS_FILES
                    (_on_event_poddefaults_context env (s3_endpoint object_storage_data))
                  = Return manifests) as Second.
  { intros w'. subst second. rewrite _send_manifests_effects.
    destruct (interfaces !! "pod-defaults") as [[interface|]|] eqn:L;
      try (by intros ?%elem_of_nil).
    destruct (_create_manifests P PODDEFAULTS_FILES _) as [m|e];
      [|by intros ?%elem_of_nil].
    intros [= -> ->]%list_elem_of_singleton. eauto. }
  unfold bind. destruct (result (first w)); run_simpl.
  - intros [In|In]%elem_of_app.
    + destruct (First _ In) as (? & ? & ?). eauto.
    + destruct (Second _ In) as (? & ? & ?). eauto.
  - intros In. destruct (First _ In) as (? & ? & ?). eauto.
Qed.

(** The manifests that a pass sends are those of its publishing. *)
Lemma _on_event_sends (w : World P) relation manifests :
  relation_send_data relation manifests ∈ effects (_on_event P env w) →
  ∃ interfaces object_storage_data relational_db_data w',
    _on_event_inputs env
    = Return (interfaces, object_storage_data, relational_db_data)
    ∧ relation_send_data relation manifests
      ∈ effects (_on_event_publish P env interfaces object_storage_data w').
Proof.
  destruct (_on_event_effects P env w) as (tail & -> & Tail).
  intros [In|In]%elem_of_app.
  2:{ destruct Tail as [->|[st ->]];
        [by apply elem_of_nil in In|by apply list_elem_of_singleton in In]. }
  revert In. rewrite _on_event_body_views.
  destruct (_on_event_inputs env) as [[[interfaces os] db]|e];
    [|by intros ?%elem_of_nil].
  intros In. exists interfaces, os, db.
  unfold _on_event_actions in In.
  set (b := _on_event_bucket P env (_on_event_s3_wrapper os)
              (config_default_artifact_root env)) in In.
  assert (Forall (λ e, is_bucket_check e || is_bucket_creation e = true)
            (effects (b w))) as Bes.
  { destruct (_on_event_bucket_calls P env (_on_event_s3_wrapper os)
                (config_default_artifact_root env) w)
      as [[E _]|[[E _]|[[E _]|[E _]]]]; subst b; rewrite E; repeat constructor. }
  assert (relation_send_data relation manifests ∉ effects (b w)) as NotB.
  { intros In'. eapply Forall_forall in Bes; [|exact In']. done. }
  unfold bind at 1 in In. destruct (result (b w)); run_simpl_in In; [|done].
  apply elem_of_app in In as [In|In]; [done|].
  pose proof (_update_layer_run P env (_get_env_vars db os)
                (config_default_artifact_root env) (final (b w))) as U.
  cbv zeta in U. unfold bind at 1 in In. rewrite U in In.
  destruct (decide (plan (final (b w)) = _)); run_simpl_in In.
  - eexists. split; [done|exact In].
  - destruct (replan_error P _); run_simpl_in In.
    + apply elem_of_cons in In as [|In]; [done|].
      apply elem_of_cons in In as [|In]; [done|].
      apply elem_of_cons in In as [|In]; [done|].
      by apply elem_of_nil in In.
    + apply elem_of_cons in In as [|In]; [done|].
      apply elem_of_cons in In as [|In]; [done|].
      apply elem_of_cons in In as [|In]; [done|].
      eexists. split; [done|exact In].
Qed.

(** A manifest that a pass sends goes to the secrets or to the
    pod-defaults relation, the relation is established, and the manifest is
    the rendering of the template files of that relation in the context of
    the pass; such a pass has gathered all its inputs. *)
Theorem published_manifests (w : World P) relation manifests :
  relation_send_data relation manifests ∈ effects (_on_event P env w) →
  ∃ interfaces object_storage_data relational_db_data interface,
    _on_event_inputs env
    = Return (interfaces, object_storage_data, relational_db_data)
    ∧ interfaces !! relation = Some (Some interface)
    ∧ (relation = "secrets"
         ∧ _create_manifests P SECRETS_FILES
             (_on_event_secrets_context env object_storage_data) = Return manifests
       ∨ relation = "pod-defaults"
         ∧ _create_manifests P PODDEFAULTS_FILES
             (_on_event_poddefaults_context env (s3_endpoint object_storage_data))
           = Return manifests).
Proof.
  intros In.
  destruct (_on_event_sends w relation manifests In)
    as (interfaces & os & db & w' & I & In').
  destruct (_on_event_publish_sends _ _ _ _ _ In') as ([interface L] & Which).
  by exists interfaces, os, db, interface.
Qed.

End Publishing.

Section Converging.

Variable P : Platform.
Variable env : Env.

(** A pass touches no service of the plan but the one of the charm. *)
Theorem pass_keeps_other_services (w : World P) name :
  name ≠ _container_name →
  plan (final (_on_event P env w)) !! name = plan w !! name.
Proof.
  intros N. destruct (_on_event_final P env w) as [-> _].
  destruct (_on_event_body_cases P env w)
    as [(e & I & ->)
       |(i & os & db & bes & I & Bes
         & [(m & B & ->)|(store & pres & pes & B & Pes & Pres
                    & [[E ->]|[(E & err & Re & ->)|(E & Re & ->)]])])];
    run_simpl; try done;
    destruct (_charmed_mlflow_layer_command env (_get_env_vars db os)
                (config_default_artifact_root env)) as (service & -> & _);
    rewrite lookup_union_r; try done; by apply lookup_singleton_ne.
Qed.

(** A pass that leaves the active status has completed its body. *)
Lemma _on_event_active_body (w : World P) :
  result (_on_event P env w) = Return tt →
  unit_status (final (_on_event P env w)) = ActiveStatus →
  result (_on_event_body P env w) = Return tt.
Proof.
  rewrite _on_event_run. cbv zeta.
  pose proof (_on_event_body_status P env w) as K.
  destruct (result (_on_event_body P env w)) as [[]|e]; [done|].
  destruct e; try discriminate. run_simpl. intros _ [= -> _].
  destruct (K msg Active eq_refl); discriminate.
Qed.

(** The active status means that the pass went through: the unit is the
    leader, all inputs were gathered, the name of the bucket is valid, and
    the plan holds the service of the charm with the environment computed
    from the data of the two relations. *)
Theorem active_pass_went_through (w : World P) :
  result (_on_event P env w) = Return tt →
  unit_status (final (_on_event P env w)) = ActiveStatus →
  ∃ interfaces object_storage_data relational_db_data service,
    _on_event_inputs env
    = Return (interfaces, object_storage_data, relational_db_data)
    ∧ is_leader env = true
    ∧ validate_s3_bucket_name P (config_default_artifact_root env) = true
    ∧ plan (final (_on_event P env w)) !! _container_name = Some service
    ∧ environment service = _get_env_vars relational_db_data object_storage_data.
Proof.
  intros R A. pose proof (_on_event_active_body w R A) as Body.
  destruct (_on_event_final P env w) as [-> _].
  assert (∀ x, _on_event_inputs env = Return x → is_leader env = true) as Leader.
  { unfold _on_event_inputs, _check_leader. by destruct (is_leader env). }
  destruct (_on_event_body_cases P env w)
    as [(e & I & Eq)
       |(i & os & db & bes & I & Bes
         & [(m & B & Eq)|(store & pres & pes & B & Pes & Pres
                    & [[E Eq]|[(E & err & Re & Eq)|(E & Re & Eq)]])])];
    rewrite Eq in Body |- *; run_simpl; try discriminate;
    destruct (_charmed_mlflow_layer_command env (_get_env_vars db os)
                (config_default_artifact_root env)) as (service & S & Envs & _);
    exists i, os, db, service;
    (split; [done|]); (split; [by eapply Leader|]);
    (split; [destruct (validate_s3_bucket_name P (config_default_artifact_root env))
               eqn:V; [done|];
             by rewrite (_on_event_bucket_invalid P env _ _ w V) in B|]);
    (split; [|done]).
  - rewrite E, S. apply lookup_singleton_eq.
  - rewrite S. apply lookup_union_Some_l, lookup_singleton_eq.
Qed.

(** A replan that fails is not tried again.  On a container that holds no
    other service, with the bucket at hand, a pass whose replan fails ends
    blocked and leaves the new layer in the plan; the next pass on the same
    inputs finds the plan equal to the layer, makes no call on the container
    and, when it returns, leaves the active status. *)
Theorem failed_replan_is_not_retried interfaces object_storage_data
    relational_db_data err (w : World P) :
  let new_layer :=
    _charmed_mlflow_layer env
      (_get_env_vars relational_db_data object_storage_data)
      (config_default_artifact_root env) in
  own_plan (plan w) = true →
  _on_event_inputs env
  = Return (interfaces, object_storage_data, relational_db_data) →
  validate_s3_bucket_name P (config_default_artifact_root env) = true →
  check_if_bucket_accessible P (_on_event_s3_wrapper object_storage_data)
    (config_default_artifact_root env) (s3 w) = true →
  plan w ≠ services new_layer →
  replan_error P (services new_layer ∪ plan w) = Some err →
  let first := _on_event P env w in
  let second := _on_event P env (final first) in
  unit_status (final first) = BlockedStatus ("Failed to replan with error: " +:+ err)
  ∧ container_replan ∈ effects first
  ∧ List.filter is_container_effect (effects second) = []
  ∧ (result second = Return tt → unit_status (final second) = ActiveStatus).
Proof.
  intros new_layer Own I V C Ne Re. cbv zeta.
  pose proof (_on_event_bucket_accessible P env
                (_on_event_s3_wrapper object_storage_data)
                (config_default_artifact_root env)) as Acc.
  assert (_on_event P env w =
          mkRun (Return tt)
            (mkWorld (BlockedStatus ("Failed to replan with error: " +:+ err))
               (services new_layer ∪ plan w) (s3 w))
            ([s3_check_if_bucket_accessible (config_default_artifact_root env);
              s3_check_if_bucket_accessible (config_default_artifact_root env);
              unit_set_status (MaintenanceStatus "Applying new pebble layer");
              container_add_layer _container_name new_layer true;
              container_replan;
              unit_set_status (BlockedStatus ("Failed to replan with error: " +:+ err))]))
    as First.
  { rewrite _on_event_run, _on_event_body_views, I.
    destruct (_on_event_actions_bucket_returns P env interfaces object_storage_data
                relational_db_data w w _ (Acc w V C)) as (pres & pes & _ & _ & ->).
    cbv zeta. fold new_layer.
    destruct (decide (plan w = services new_layer)); [done|].
    rewrite Re. by run_simpl. }
  rewrite First. run_simpl.
  split; [done|].
  split; [do 4 (apply elem_of_cons; right); apply elem_of_cons; by left|].
  set (w1 := mkWorld _ _ _).
  assert (plan w1 = services new_layer) as Settled.
  { subst w1. run_simpl.
    destruct (_charmed_mlflow_layer_command env
                (_get_env_vars relational_db_data object_storage_data)
                (config_default_artifact_root env)) as (service & S & _).
    fold new_layer in S. rewrite S. by apply own_plan_union. }
  rewrite _on_event_run, _on_event_body_views, I.
  destruct (_on_event_actions_bucket_returns P env interfaces object_storage_data
              relational_db_data w1 w1 _ (Acc w1 V C)) as (pres & pes & Pes & Pres & ->).
  cbv zeta. fold new_layer.
  destruct (decide (plan w1 = services new_layer)); [|done].
  destruct (send_effects_only pes Pes) as (_ & Cp & _).
  destruct pres as [[]|e0]; run_simpl.
  - split; [|done]. simpl. by rewrite List.filter_app, Cp.
  - destruct e0; try (by edestruct Pres); run_simpl; (split; [|done]);
      simpl; exact Cp.
Qed.

(** Without a database relation a pass does what the handler of the
    broken relation does: it sets the blocked status that asks for the
    relation, and nothing else. *)
Theorem broken_relation_agrees_with_pass interfaces object_storage_data
    (w : World P) :
  is_leader env = true →
  get_interfaces env = Interfaces interfaces →
  _get_object_storage_data interfaces = Return object_storage_data →
  relational_db_relations env = [] →
  _on_event P env w = _on_database_relation_removed P w.
Proof.
  intros L I O R. rewrite _on_event_run, _on_event_body_views.
  rewrite (_on_event_inputs_database env _ _ L I O).
  unfold _get_relational_db_data, get_relation. by rewrite R.
Qed.

(** The handler of the pebble-ready event raises an [ErrorWithStatus]
    exactly when the container cannot be reached: this error is raised
    before the pass and is not caught, and every such error of the pass
    itself is caught. *)
Theorem _on_pebble_ready_raises (w : World P) msg st :
  result (_on_pebble_ready P env w) = Raise (ErrorWithStatus msg st)
  ↔ can_connect env = false
    ∧ msg = "Pebble is ready and container is not ready" ∧ st = Blocked.
Proof.
  unfold _on_pebble_ready. destruct (can_connect env); simpl.
  - split; [|by intros [? _]].
    intros R. by destruct (_on_event_no_status_error P env w msg st).
  - split; [by intros [= <- <-]|]. by intros (_ & -> & ->).
Qed.

(** One object storage everywhere: the host and port that the S3 client of
    the bucket check connects to make up the endpoint URL of the server's
    environment and of both published contexts, and the keys of the client
    are those of the environment and of the secrets context. *)
Theorem object_storage_settings_agree object_storage_data relational_db_data :
  let s3_wrapper := _on_event_s3_wrapper object_storage_data in
  let envs := _get_env_vars relational_db_data object_storage_data in
  let secrets := _on_event_secrets_context env object_storage_data in
  let poddefaults := _on_event_poddefaults_context env (secrets !!! "s3_endpoint") in
  let url := "http://" +:+ s3_service s3_wrapper +:+ ":" +:+ s3_port s3_wrapper in
  envs !! "MLFLOW_S3_ENDPOINT_URL" = Some url
  ∧ envs !! "AWS_ENDPOINT_URL" = Some url
  ∧ secrets !! "s3_endpoint" = Some url
  ∧ poddefaults !! "s3_endpoint" = Some url
  ∧ envs !! "AWS_ACCESS_KEY_ID" = Some (access_key s3_wrapper)
  ∧ secrets !! "access_key" = Some (access_key s3_wrapper)
  ∧ envs !! "AWS_SECRET_ACCESS_KEY" = Some (secret_access_key s3_wrapper)
  ∧ secrets !! "secret_access_key" = Some (secret_access_key s3_wrapper).
Proof.
  cbv zeta.
  assert ("http://" +:+ s3_service (_on_event_s3_wrapper object_storage_data)
            +:+ ":" +:+ s3_port (_on_event_s3_wrapper object_storage_data)
          = s3_endpoint object_storage_data) as ->.
  { unfold s3_endpoint, _on_event_s3_wrapper. cbn [s3_service s3_port].
    by rewrite !append_assoc. }
  rewrite (_on_event_secrets_context_endpoint env).
  unfold _get_env_vars, _on_event_secrets_context, _on_event_poddefaults_context,
    _on_event_s3_wrapper.
  cbn [access_key secret_access_key].
  repeat split; by simplify_map_eq.
Qed.

End Converging.

(** ** The action on a charm that binds what the handler reads *)

(** When the handler returns it has answered the action once: with a
    failure, or with a result that holds the one key admin-password. *)
Theorem get_minio_password_one_answer self event event' :
  _on_get_minio_password self event = Return event' →
  (∃ msg, event' = fail event msg)
  ∨ (∃ text, event' = set_results event {[ "admin-password" := text ]}).
Proof.
  unfold _on_get_minio_password, getattr, getitem.
  destruct (grafana_service self) as [service|]; simpl; [|discriminate].
  destruct (is_ready service) as [[]|]; simpl; try discriminate.
  2:{ intros [= <-]. eauto. }
  destruct (config self !! "admin_user") as [user|]; simpl; [|discriminate].
  destruct (_get_admin_password self) as [[pw|]|]; simpl; try discriminate.
  destruct (password_has_been_changed service user pw) as [[]|]; simpl;
    try discriminate; intros [= <-]; eauto.
Qed.

(** While Grafana is not ready the handler fails the action and reads
    neither the configuration nor the password: what they hold, or whether
    the charm has them, does not matter. *)
Theorem get_minio_password_not_ready self service event :
  grafana_service self = Some service →
  is_ready service = Return false →
  _on_get_minio_password self event
  = Return (fail event "Grafana is not reachable yet. Please try again in a few minutes").
Proof.
  intros G R. unfold _on_get_minio_password. rewrite G. simpl. by rewrite R.
Qed.

(** The handler catches nothing: with Grafana ready, a configuration
    without admin_user is a [KeyError], and what the check of the password
    raises leaves the handler, which has answered nothing. *)
Theorem get_minio_password_propagates self service admin_password :
  grafana_service self = Some service →
  is_ready service = Return true →
  _get_admin_password self = Some (Return admin_password) →
  ∀ event,
    (config self !! "admin_user" = None →
       _on_get_minio_password self event = Raise (KeyError "admin_user"))
    ∧ (∀ admin_user e,
         config self !! "admin_user" = Some admin_user →
         password_has_been_changed service admin_user admin_password = Raise e →
         _on_get_minio_password self event = Raise e).
Proof.
  intros G R A event. unfold _on_get_minio_password, getitem.
  rewrite G, A. simpl. rewrite R. simpl. split.
  - by intros ->.
  - intros user e -> Ch. simpl. by rewrite Ch.
Qed.

(** ** The further properties on the concrete platform *)

Lemma _get_object_storage_data_outcomes_witness :
  _get_object_storage_data Demo.interfaces_losing_data
  = Raise (ErrorWithStatus
      ("Unexpected error unpacking object storage data - data format not "
         +:+ "as expected. Caught exception: 'list index out of range'")
      Blocked).
Proof.
  destruct (_get_object_storage_data_outcomes Demo.interfaces_losing_data)
    as (_ & _ & Known & _).
  destruct (Known _ eq_refl) as (_ & _ & Data).
  destruct (Data Demo.object_storage [] eq_refl) as (_ & Empty & _).
  apply Empty. reflexivity.
Defined.


Lemma missing_database_field_escapes_witness :
  _on_event (Demo.platform false) Demo.env_missing_password (Demo.fresh false [])
  = mkRun (Raise (KeyError "password")) (Demo.fresh false []) [].
Proof.
  refine (proj2 (missing_database_field_escapes (Demo.platform false)
                   Demo.env_missing_password Demo.interfaces Demo.object_storage
                   7 [] 7
                   (<["endpoints" := "mysql-k8s:3306"]> (<["username" := "relation-7"]> ∅))
                   [] "password" (Demo.fresh false [])
                   eq_refl eq_refl eq_refl eq_refl eq_refl _ _ _)).
  - constructor.
  - vm_compute. discriminate.
  - right. exists "mysql-k8s:3306". split; [reflexivity|]. split; [reflexivity|].
    right. split; [reflexivity|]. split; [|reflexivity]. by eexists.
Defined.

Lemma database_relation_without_data_waiting_witness :
  unit_status (final (_on_event (Demo.platform false) Demo.env_database_empty
                        (Demo.fresh false [])))
  = WaitingStatus "Waiting for relational-db relation data".
Proof.
  rewrite (database_relation_without_data_waiting (Demo.platform false)
             Demo.env_database_empty Demo.interfaces Demo.object_storage 7
             (Demo.fresh false [])); try reflexivity.
  by repeat constructor.
Defined.

Lemma no_bucket_creation_without_flag_witness :
  s3 (final (_on_event (Demo.platform false) (Demo.env "mlflow" false)
               (Demo.fresh false [])))
  = [].
Proof.
  exact (proj2 (no_bucket_creation_without_flag (Demo.platform false)
                  (Demo.env "mlflow" false) (Demo.fresh false []) eq_refl)).
Defined.

Lemma escaping_exception_leaves_status_witness :
  unit_status
    (final (_on_event Demo.platform_broken_template (Demo.env "mlflow" true)
              (@mkWorld Demo.platform_broken_template (mkStatus Unknown "") ∅ [])))
  = mkStatus Unknown ""
  ∨ unit_status
      (final (_on_event Demo.platform_broken_template (Demo.env "mlflow" true)
                (@mkWorld Demo.platform_broken_template (mkStatus Unknown "") ∅ [])))
    = MaintenanceStatus "Applying new pebble layer".
Proof.
  assert (result (_on_event Demo.platform_broken_template (Demo.env "mlflow" true)
                    (@mkWorld Demo.platform_broken_template (mkStatus Unknown "") ∅ []))
          = Raise (OtherException "TemplateSyntaxError")) as R
    by (vm_compute; reflexivity).
  exact (proj2 (proj2 (proj2
           (escaping_exception_leaves_status Demo.platform_broken_template
              (Demo.env "mlflow" true) _ _ R)))).
Defined.

Lemma returned_pass_status_witness :
  status_type (unit_status (final (_on_event (Demo.platform false)
                                     (Demo.env "mlflow" true) (Demo.fresh false []))))
  = Active
  ∨ status_type (unit_status (final (_on_event (Demo.platform false)
                                       (Demo.env "mlflow" true) (Demo.fresh false []))))
    = Waiting
  ∨ status_type (unit_status (final (_on_event (Demo.platform false)
                                       (Demo.env "mlflow" true) (Demo.fresh false []))))
    = Blocked.
Proof.
  assert (result (_on_event (Demo.platform false) (Demo.env "mlflow" true)
                    (Demo.fresh false [])) = Return tt) as R
    by (vm_compute; reflexivity).
  exact (proj2 (returned_pass_status (Demo.platform false) (Demo.env "mlflow" true)
                  (Demo.fresh false []) R)).
Defined.

Lemma published_manifests_witness :
  ∃ interfaces object_storage_data relational_db_data interface,
    _on_event_inputs (Demo.env "mlflow" true)
    = Return (interfaces, object_storage_data, relational_db_data)
    ∧ interfaces !! "secrets" = Some (Some interface)
    ∧ ("secrets" = "secrets"
         ∧ _create_manifests (Demo.platform false) SECRETS_FILES
             (_on_event_secrets_context (Demo.env "mlflow" true) object_storage_data)
           = Return "src/secrets/mlflow-minio-artifact.j2,src/secrets/mlflow-seldon-rclone-secret.j2"
       ∨ "secrets" = "pod-defaults"
         ∧ _create_manifests (Demo.platform false) PODDEFAULTS_FILES
             (_on_event_poddefaults_context (Demo.env "mlflow" true)
                (s3_endpoint object_storage_data))
           = Return "src/secrets/mlflow-minio-artifact.j2,src/secrets/mlflow-seldon-rclone-secret.j2").
Proof.
  apply (published_manifests (Demo.platform false) (Demo.env "mlflow" true)
           (Demo.fresh false [])).
  vm_compute. do 6 (apply list_elem_of_further). apply list_elem_of_here.
Defined.

Lemma pass_keeps_other_services_witness :
  plan (final (_on_event (Demo.platform false) (Demo.env "mlflow" true)
                 Demo.with_other_service)) !! "nginx"
  = Some (mkService "replace" "proxy" "nginx -g daemon-off" "enabled" ∅).
Proof.
  rewrite (pass_keeps_other_services (Demo.platform false) (Demo.env "mlflow" true)
             Demo.with_other_service "nginx"); [reflexivity|].
  vm_compute. discriminate.
Defined.

Lemma active_pass_went_through_witness :
  ∃ interfaces object_storage_data relational_db_data service,
    _on_event_inputs (Demo.env "mlflow" true)
    = Return (interfaces, object_storage_data, relational_db_data)
    ∧ is_leader (Demo.env "mlflow" true) = true
    ∧ validate_s3_bucket_name (Demo.platform false)
        (config_default_artifact_root (Demo.env "mlflow" true)) = true
    ∧ plan (final (_on_event (Demo.platform false) (Demo.env "mlflow" true)
                     (Demo.fresh false []))) !! _container_name = Some service
    ∧ environment service = _get_env_vars relational_db_data object_storage_data.
Proof.
  apply (active_pass_went_through (Demo.platform false) (Demo.env "mlflow" true)
           (Demo.fresh false [])); vm_compute; reflexivity.
Defined.

Lemma failed_replan_is_not_retried_witness :
  unit_status (final (_on_event (Demo.platform true) (Demo.env "mlflow" true)
                        (Demo.fresh true ["mlflow"])))
  = BlockedStatus "Failed to replan with error: cannot start service"
  ∧ List.filter is_container_effect
      (effects (_on_event (Demo.platform true) (Demo.env "mlflow" true)
                  (final (_on_event (Demo.platform true) (Demo.env "mlflow" true)
                            (Demo.fresh true ["mlflow"])))))
    = [].
Proof.
  assert (plan (Demo.fresh true ["mlflow"])
          ≠ services (_charmed_mlflow_layer (Demo.env "mlflow" true)
                        (_get_env_vars
                           (mkDbData "mysql-k8s" "3306" "relation-7" "lorem-ipsum")
                           Demo.object_storage)
                        (config_default_artifact_root (Demo.env "mlflow" true))))
    as Ne by (vm_compute; discriminate).
  destruct (failed_replan_is_not_retried (Demo.platform true) (Demo.env "mlflow" true)
              Demo.interfaces Demo.object_storage
              (mkDbData "mysql-k8s" "3306" "relation-7" "lorem-ipsum")
              "cannot start service" (Demo.fresh true ["mlflow"])
              eq_refl eq_refl eq_refl eq_refl Ne eq_refl)
    as (St & _ & Quiet & _).
  split; [exact St|exact Quiet].
Defined.

Lemma broken_relation_agrees_with_pass_witness :
  _on_event (Demo.platform false) Demo.env_no_database (Demo.fresh false [])
  = _on_database_relation_removed (Demo.platform false) (Demo.fresh false []).
Proof.
  apply (broken_relation_agrees_with_pass (Demo.platform false) Demo.env_no_database
           Demo.interfaces Demo.object_storage (Demo.fresh false []));
    reflexivity.
Defined.

Lemma get_minio_password_of_bound_charm_witness :
  _on_get_minio_password (Demo.charm_with_grafana true false) Demo.event
  = Return (set_results Demo.event {[ "admin-password" := "s3cret" ]}).
Proof.
  apply (get_minio_password_of_bound_charm (Demo.charm_with_grafana true false)
           (mkGrafanaService (Return true) (fun _ _ => Return false))
           "admin" "s3cret" true false Demo.event); reflexivity.
Defined.

Lemma get_minio_password_one_answer_witness :
  (∃ msg, set_results Demo.event
            {[ "admin-password" := "Admin password has been changed by an administrator" ]}
          = fail Demo.event msg)
  ∨ (∃ text, set_results Demo.event
               {[ "admin-password" := "Admin password has been changed by an administrator" ]}
             = set_results Demo.event {[ "admin-password" := text ]}).
Proof.
  apply (get_minio_password_one_answer (Demo.charm_with_grafana true true) Demo.event).
  reflexivity.
Defined.

Lemma get_minio_password_not_ready_witness :
  _on_get_minio_password (mkCharm (grafana_service (Demo.charm_with_grafana false false))
                            None ∅) Demo.event
  = Return (fail Demo.event
              "Grafana is not reachable yet. Please try again in a few minutes").
Proof.
  apply (get_minio_password_not_ready _
           (mkGrafanaService (Return false) (fun _ _ => Return false)));
    reflexivity.
Defined.

Lemma get_minio_password_propagates_witness :
  _on_get_minio_password Demo.charm_with_silent_grafana Demo.event
  = Raise (OtherException "connection refused").
Proof.
  apply (proj2 (get_minio_password_propagates Demo.charm_with_silent_grafana
                  (mkGrafanaService (Return true)
                     (fun _ _ => Raise (OtherException "connection refused")))
                  "s3cret" eq_refl eq_refl eq_refl Demo.event) "admin");
    reflexivity.
Defined.
